(** * SelfMon (Honeywell Galaxy alarm) integration: discovery and decoders

    A shallow embedding of the topic classification done by the config flow
    ([config_flow.py]), of the unique ids and payload decoders of the entity
    platforms ([binary_sensor.py], [sensor.py]) and of the two timed
    discovery sessions, together with the properties the specification
    states about them.

    Text is modelled by [string].  The gateway's topics and payloads are
    ASCII, and on ASCII text the character classes below coincide with
    Python's [str.isdigit], [str.isspace] and [str.lower]; characters
    above 127 are ordinary characters here (neither digit nor space). *)

From Stdlib Require Import Ascii NArith ZArith Bool Lia.
From Stdlib Require Import DecimalString DecimalN.
From stdpp Require Import base option list strings gmap fin_maps sorting.

Local Open Scope N_scope.

(** ** Python string builtins used by the integration *)

Module Py.

(** [s.startswith(p)] *)
Fixpoint startswith (p s : string) : bool :=
  match p, s with
  | EmptyString, _ => true
  | String a p', String b s' => if Ascii.eqb a b then startswith p' s' else false
  | String _ _, EmptyString => false
  end.

(** [p in s] for strings: [p] occurs somewhere in [s]. *)
Fixpoint contains (p s : string) : bool :=
  startswith p s ||
  match s with
  | EmptyString => false
  | String _ s' => contains p s'
  end.

(** [s[n:]] *)
Fixpoint drop (n : nat) (s : string) : string :=
  match n, s with
  | O, _ => s
  | S n', String _ s' => drop n' s'
  | S _, EmptyString => EmptyString
  end.

(** [s.replace(old, "", 1)] for a non-empty [old]: the leftmost
    occurrence of [old] is removed, and [s] is returned as it is when
    [old] does not occur. *)
Fixpoint remove_first (old s : string) : string :=
  if startswith old s then drop (String.length old) s
  else match s with
       | EmptyString => EmptyString
       | String c s' => String c (remove_first old s')
       end.

(** [s.split(sep)] for a one-character separator: never empty. *)
Fixpoint split (sep : ascii) (s : string) : list string :=
  match s with
  | EmptyString => [EmptyString]
  | String c s' =>
      if Ascii.eqb c sep then EmptyString :: split sep s'
      else match split sep s' with
           | seg :: segs => String c seg :: segs
           | [] => [String c EmptyString]
           end
  end.

(** [l[-1]] on the result of a [split]. *)
Definition last_item (l : list string) : string := List.last l EmptyString.

(** [c.isdigit()] on ASCII. *)
Definition is_digit (c : ascii) : bool :=
  (48 <=? N_of_ascii c) && (N_of_ascii c <=? 57).

(** [s.isdigit()]: at least one character and all of them digits. *)
Fixpoint all_digits (s : string) : bool :=
  match s with
  | EmptyString => true
  | String c s' => is_digit c && all_digits s'
  end.

Definition isdigit (s : string) : bool :=
  match s with
  | EmptyString => false
  | String _ _ => all_digits s
  end.

(** [int(s)] on a string of decimal digits, most significant first. *)
Definition digit_value (c : ascii) : N := N_of_ascii c - 48.

Fixpoint int_from (acc : N) (s : string) : N :=
  match s with
  | EmptyString => acc
  | String c s' => int_from (10 * acc + digit_value c) s'
  end.

Definition int (s : string) : N := int_from 0 s.

(** [str(n)] for a natural number. *)
Definition str (n : N) : string := NilEmpty.string_of_uint (N.to_uint n).

(** [c.isspace()] on ASCII: tab, line feed, vertical tab, form feed,
    carriage return, the four separators 28..31 and the space. *)
Definition is_space (c : ascii) : bool :=
  let n := N_of_ascii c in
  ((9 <=? n) && (n <=? 13)) || ((28 <=? n) && (n <=? 31)) || (n =? 32).

(** [s.lstrip()] *)
Fixpoint lstrip (s : string) : string :=
  match s with
  | EmptyString => EmptyString
  | String c s' => if is_space c then lstrip s' else s
  end.

(** Removal of the trailing characters that satisfy [drop_it]:
    [s.rstrip()] and [s.rstrip(chars)]. *)
Fixpoint rstrip_with (drop_it : ascii → bool) (s : string) : string :=
  match s with
  | EmptyString => EmptyString
  | String c s' =>
      match rstrip_with drop_it s' with
      | EmptyString => if drop_it c then EmptyString else String c EmptyString
      | kept => String c kept
      end
  end.

(** [s.strip()] *)
Definition strip (s : string) : string := rstrip_with is_space (lstrip s).

(** [s.rstrip("/")] *)
Definition rstrip_slash (s : string) : string :=
  rstrip_with (Ascii.eqb "/"%char) s.

(** [c.lower()] and [s.lower()] on ASCII. *)
Definition lower_char (c : ascii) : ascii :=
  let n := N_of_ascii c in
  if (65 <=? n) && (n <=? 90) then ascii_of_N (n + 32) else c.

Fixpoint lower (s : string) : string :=
  match s with
  | EmptyString => EmptyString
  | String c s' => String (lower_char c) (lower s')
  end.

End Py.

(** ** Constants of the integration ([const.py]) *)

Definition SENSOR_TYPE_ZONE_INPUT : string := "zone_input".
Definition SENSOR_TYPE_OUTPUT : string := "output".
Definition SENSOR_TYPE_TEMPERATURE : string := "temperature".
Definition SENSOR_TYPE_VKP_LINE : string := "vkp_line".
Definition SENSOR_TYPE_VERSION : string := "version".

Definition TOPIC_PRIO_INPUTS : string := "prio/inputs/read".
Definition TOPIC_VRIO_INPUTS : string := "vrio/inputs/read".
Definition TOPIC_PRIO_OUTPUTS : string := "prio/outputs".
Definition TOPIC_VRIO_OUTPUTS : string := "vrio/outputs".
Definition TOPIC_TEMPERATURE : string := "temperature".
Definition TOPIC_VKP_LINE1 : string := "vkp/display/line1".
Definition TOPIC_VKP_LINE2 : string := "vkp/display/line2".
Definition TOPIC_VERSION : string := "version".

Definition PAYLOAD_OPEN : string := "OPEN".
Definition PAYLOAD_CLOSED : string := "CLOSED".

(** ** The config flow's helpers ([config_flow.py]) *)

(** [zone_num = int(zone_id) if zone_id.isdigit() else 0] *)
Definition zone_num (zone_id : string) : N :=
  if Py.isdigit zone_id then Py.int zone_id else 0.

(** [x in (a, b)] on numbers. *)
Definition in_pair (x a b : N) : bool := (x =? a) || (x =? b).

(** [get_default_device_class(zone_id, topic)]; the topic is not used. *)
Definition get_default_device_class (zone_id topic : string) : string :=
  let last_digit := zone_num zone_id mod 10 in
  if in_pair last_digit 1 7 then "door"
  else if in_pair last_digit 2 8 then "motion"
  else if in_pair last_digit 4 6 then "smoke"
  else if in_pair last_digit 3 5 then "safety"
  else "None".


(** A discovered sensor: the dictionary the discovery callback stores per
    topic.  The key [is_prio] is only present for zone inputs and outputs. *)
Record descriptor := Descriptor {
  sensor_type : string;
  zone_id : string;
  name : string;
  device_class : string;
  enabled : bool;
  topic : string;
  is_prio : option bool;
  auto_enabled : bool
}.

(** [get_default_sensor_name(sensor_type, sensor_id)] *)
Definition get_default_sensor_name (sensor_type sensor_id : string) : string :=
  if String.eqb sensor_type SENSOR_TYPE_ZONE_INPUT then "Alarm - Zone " +:+ sensor_id
  else if String.eqb sensor_type SENSOR_TYPE_OUTPUT then "Alarm - Output " +:+ sensor_id
  else if String.eqb sensor_type SENSOR_TYPE_TEMPERATURE then "Temperature Sensor"
  else if String.eqb sensor_type SENSOR_TYPE_VKP_LINE then
    if Py.contains "line1" (Py.lower sensor_id) then "Keypad Line 1"
    else "Keypad Line 2"
  else if String.eqb sensor_type SENSOR_TYPE_VERSION then "Module Version"
  else "Sensor " +:+ sensor_id.

Module ConfigFlow.

(** The body of the callback [message_received] of [async_step_discover]:
    the dictionary it builds for a topic, or [None] when no branch is
    taken and nothing is stored. *)
Definition discovered (module_path topic : string) : option descriptor :=
  let relative_topic := Py.remove_first (module_path +:+ "/") topic in
  if Py.startswith TOPIC_PRIO_INPUTS relative_topic
     || Py.startswith TOPIC_VRIO_INPUTS relative_topic then
    let zone := Py.last_item (Py.split "/" relative_topic) in
    Some {| sensor_type := SENSOR_TYPE_ZONE_INPUT;
            zone_id := zone;
            name := get_default_sensor_name SENSOR_TYPE_ZONE_INPUT zone;
            device_class := get_default_device_class zone topic;
            enabled := true;
            topic := topic;
            is_prio := Some (Py.contains TOPIC_PRIO_INPUTS relative_topic);
            auto_enabled := false |}
  else if Py.startswith TOPIC_PRIO_OUTPUTS relative_topic
          || Py.startswith TOPIC_VRIO_OUTPUTS relative_topic then
    let output_id := Py.last_item (Py.split "/" relative_topic) in
    Some {| sensor_type := SENSOR_TYPE_OUTPUT;
            zone_id := output_id;
            name := get_default_sensor_name SENSOR_TYPE_OUTPUT output_id;
            device_class := "None";
            enabled := true;
            topic := topic;
            is_prio := Some (Py.contains TOPIC_PRIO_OUTPUTS relative_topic);
            auto_enabled := false |}
  else if String.eqb relative_topic TOPIC_TEMPERATURE then
    Some {| sensor_type := SENSOR_TYPE_TEMPERATURE;
            zone_id := "temperature";
            name := get_default_sensor_name SENSOR_TYPE_TEMPERATURE "";
            device_class := "temperature";
            enabled := true;
            topic := topic;
            is_prio := None;
            auto_enabled := true |}
  else if String.eqb relative_topic TOPIC_VKP_LINE1
          || String.eqb relative_topic TOPIC_VKP_LINE2 then
    let line_id := if Py.contains "line1" relative_topic then "line1" else "line2" in
    Some {| sensor_type := SENSOR_TYPE_VKP_LINE;
            zone_id := line_id;
            name := get_default_sensor_name SENSOR_TYPE_VKP_LINE line_id;
            device_class := "None";
            enabled := true;
            topic := topic;
            is_prio := None;
            auto_enabled := true |}
  else if String.eqb relative_topic TOPIC_VERSION then
    Some {| sensor_type := SENSOR_TYPE_VERSION;
            zone_id := "version";
            name := get_default_sensor_name SENSOR_TYPE_VERSION "";
            device_class := "None";
            enabled := true;
            topic := topic;
            is_prio := None;
            auto_enabled := true |}
  else None.

(** [message_received(msg)]: the store [self._discovered_sensors] after
    the callback ran on a message with topic [msg_topic]. *)
Definition message_received (module_path : string)
    (discovered_sensors : gmap string descriptor) (msg_topic : string)
    : gmap string descriptor :=
  match discovered module_path msg_topic with
  | Some d => <[msg_topic := d]> discovered_sensors
  | None => discovered_sensors
  end.

(** [topics_to_subscribe] of [async_step_discover]. *)
Definition topics_to_subscribe (module_path : string) (enable_outputs : bool)
    : list string :=
  [ module_path +:+ "/" +:+ TOPIC_PRIO_INPUTS +:+ "/#";
    module_path +:+ "/" +:+ TOPIC_VRIO_INPUTS +:+ "/#";
    module_path +:+ "/" +:+ TOPIC_TEMPERATURE;
    module_path +:+ "/" +:+ TOPIC_VKP_LINE1;
    module_path +:+ "/" +:+ TOPIC_VKP_LINE2;
    module_path +:+ "/" +:+ TOPIC_VERSION ]
  ++ (if enable_outputs
      then [ module_path +:+ "/" +:+ TOPIC_PRIO_OUTPUTS +:+ "/#";
             module_path +:+ "/" +:+ TOPIC_VRIO_OUTPUTS +:+ "/#" ]
      else []).

(** [subscribe_patterns] of [async_step_user]. *)
Definition subscribe_patterns : list string :=
  [ "selfmon/vmod.+/temperature";
    "selfmon/vmod.+/version";
    "selfmon/vmod.+/heartbeat";
    "selfmon/vmod.+/vkp/display/#";
    "selfmon/vmod.+/prio/#";
    "selfmon/vmod.+/vrio/#";
    "selfmon/#" ].

(** The character class [[a-fA-F0-9]]. *)
Definition is_hex (c : ascii) : bool :=
  let n := N_of_ascii c in
  ((97 <=? n) && (n <=? 102)) || ((65 <=? n) && (n <=? 70))
  || ((48 <=? n) && (n <=? 57)).

(** The longest run of hexadecimal digits at the start of [s], and what
    follows it: the greedy [[a-fA-F0-9]+] reads the first and leaves the
    second. *)
Fixpoint hex_run (s : string) : string :=
  match s with
  | String c s' => if is_hex c then String c (hex_run s') else EmptyString
  | EmptyString => EmptyString
  end.

Fixpoint after_hex_run (s : string) : string :=
  match s with
  | String c s' => if is_hex c then after_hex_run s' else s
  | EmptyString => EmptyString
  end.

Definition MODULE_PREFIX : string := "selfmon/vmod.".

(** [re.match(r"(selfmon/vmod\.[a-fA-F0-9]+)", topic)]: group 1 of the
    match at the start of the topic, when there is one. *)
Definition module_match (msg_topic : string) : option string :=
  if Py.startswith MODULE_PREFIX msg_topic then
    match hex_run (Py.drop (String.length MODULE_PREFIX) msg_topic) with
    | EmptyString => None
    | digits => Some (MODULE_PREFIX +:+ digits)
    end
  else None.

(** [module_discovered(msg)] of [async_step_user]. *)
Definition module_discovered (discovered_modules : gset string)
    (msg_topic : string) : gset string :=
  match module_match msg_topic with
  | Some m => {[ m ]} ∪ discovered_modules
  | None => discovered_modules
  end.

(** The regular expression's [$] without the MULTILINE flag: the end of
    the string, or just before a line feed that ends the string. *)
Definition at_dollar (rest : string) : bool :=
  String.eqb rest "" || String.eqb rest (String "010"%char "").

(** [re.match(r"^selfmon/vmod\.[a-fA-F0-9]+$", s)] succeeds.  After the
    literal prefix the greedy digit run is followed by [$]; giving a
    digit back would leave a digit, where [$] cannot match. *)
Definition valid_module_path (s : string) : bool :=
  Py.startswith MODULE_PREFIX s &&
  let rest := Py.drop (String.length MODULE_PREFIX) s in
  negb (String.eqb (hex_run rest) "") && at_dollar (after_hex_run rest).

Fixpoint all_hex (s : string) : bool :=
  match s with
  | EmptyString => true
  | String c s' => is_hex c && all_hex s'
  end.

(** The pattern as the specification words it: the literal prefix, then
    one or more hexadecimal digits, then the end of the text. *)
Definition module_path_pattern (s : string) : bool :=
  Py.startswith MODULE_PREFIX s &&
  let digits := Py.drop (String.length MODULE_PREFIX) s in
  negb (String.eqb digits "") && all_hex digits.

(** What a step of the flow hands back to the host. *)
Inductive flow_result :=
| ShowForm (step_id : string) (errors : list (string * string))
| Abort (reason : string).

(** [async_step_output_config(None)]: the form asking about outputs. *)
Definition async_step_output_config_form : flow_result :=
  ShowForm "output_config" [].

(** [async_step_manual_entry(user_input)], where [user_input] is the
    submitted value of the field [module_path], [configured] the unique
    ids of the entries the host already holds and [flow_path] the
    flow's [_module_path].  The step returns the new [_module_path] and
    the result. *)
Definition async_step_manual_entry (configured : gset string)
    (flow_path : string) (user_input : option string)
    : string * flow_result :=
  match user_input with
  | Some entered =>
      let module_path := Py.rstrip_slash (Py.strip entered) in
      if negb (valid_module_path module_path) then
        (flow_path, ShowForm "manual_entry" [("base", "invalid_path")])
      else if bool_decide (module_path ∈ configured) then
        (flow_path, Abort "already_configured")
      else (module_path, async_step_output_config_form)
  | None => (flow_path, ShowForm "manual_entry" [])
  end.

(** The step took the entry: it did not answer with the validation
    error. *)
Definition accepts_entry (entered : string) : bool :=
  valid_module_path (Py.rstrip_slash (Py.strip entered)).

End ConfigFlow.

(** ** The host's MQTT client

    The integration only calls [mqtt.async_subscribe] and the returned
    unsubscribe function.  The host side is modelled by the set of active
    subscriptions and by MQTT's match of a topic against a filter. *)

Module Mqtt.

(** Active subscriptions by handle, and the next handle to hand out. *)
Record broker := Broker {
  next_handle : nat;
  subscriptions : gmap nat string
}.

Definition idle : broker := Broker 0 ∅.

(** A successful [async_subscribe]: the handle stands for the returned
    unsubscribe function. *)
Definition subscribe (pattern : string) (b : broker) : nat * broker :=
  (next_handle b,
   Broker (S (next_handle b)) (<[next_handle b := pattern]> (subscriptions b))).

(** Calling the unsubscribe function of handle [h]. *)
Definition unsubscribe (h : nat) (b : broker) : broker :=
  Broker (next_handle b) (delete h (subscriptions b)).

(** Levels of a filter against levels of a topic: a level matches
    itself, [+] matches any one level, and [#] as the last level of the
    filter matches all remaining levels, none included.  [wild] is false
    on the first level of a topic that starts with [$], where wildcards
    do not apply. *)
Fixpoint match_levels (wild : bool) (filter topic : list string) : bool :=
  match filter with
  | [] => match topic with [] => true | _ :: _ => false end
  | f :: fs =>
      (wild && String.eqb f "#" && match fs with [] => true | _ :: _ => false end)
      || match topic with
         | [] => false
         | t :: ts =>
             (String.eqb f t || (wild && String.eqb f "+"))
             && match_levels true fs ts
         end
  end.

Definition topic_matches (filter topic : string) : bool :=
  match_levels (negb (Py.startswith "$" topic))
    (Py.split "/" filter) (Py.split "/" topic).

(** Handles not handed out yet are not active. *)
Definition fresh (b : broker) : Prop :=
  ∀ h : nat, (next_handle b ≤ h)%nat → subscriptions b !! h = None.

(** A path without wildcard levels: no level is [+] or [#]. *)
Definition wildcard_level (level : string) : bool :=
  String.eqb level "+" || String.eqb level "#".

Definition literal (path : string) : bool :=
  List.forallb (λ level, negb (wildcard_level level)) (Py.split "/" path).

(** The handles among [handles] whose subscription is active and matches
    the topic of a message: the host calls the callback once for each. *)
Definition receivers (b : broker) (handles : list nat) (msg_topic : string)
    : list nat :=
  List.filter
    (λ h, match subscriptions b !! h with
          | Some pattern => topic_matches pattern msg_topic
          | None => false
          end)
    handles.

End Mqtt.

(** ** The timed discovery sessions ([async_step_user], [async_step_discover]) *)

Module Session.

(** How [await asyncio.sleep(...)] comes back: the timer elapsed, or the
    host cancelled the task and [CancelledError] is raised at the await. *)
Inductive wake := TimerElapsed | TaskCancelled.

(** How the step ended. *)
Inductive exit_path := Returned | RaisedCancelledError.

(** The loop [for pattern in patterns: try: unsub = await
    mqtt.async_subscribe(...); unsubscribes.append(unsub) except
    Exception: log].  [fails] tells for which patterns the host raises. *)
Fixpoint subscribe_loop (fails : string → bool) (patterns : list string)
    (b : Mqtt.broker) (unsubscribes : list nat) : Mqtt.broker * list nat :=
  match patterns with
  | [] => (b, unsubscribes)
  | pattern :: more =>
      if fails pattern then subscribe_loop fails more b unsubscribes
      else
        let '(unsub, b') := Mqtt.subscribe pattern b in
        subscribe_loop fails more b' (unsubscribes ++ [unsub])
  end.

(** The loop [for unsub in unsubscribes: unsub()]. *)
Fixpoint unsubscribe_loop (unsubscribes : list nat) (b : Mqtt.broker)
    : Mqtt.broker :=
  match unsubscribes with
  | [] => b
  | unsub :: more => unsubscribe_loop more (Mqtt.unsubscribe unsub b)
  end.

(** The messages that arrive while the step sleeps: the host runs the
    callback for every matching subscription of the session. *)
Definition on_message {St : Type} (callback : St → string → St)
    (b : Mqtt.broker) (unsubscribes : list nat) (st : St)
    (msg_topic : string) : St :=
  List.fold_left (λ st' _, callback st' msg_topic)
    (Mqtt.receivers b unsubscribes msg_topic) st.

(** Subscribe, sleep for the window while [messages] arrive, then
    unsubscribe.  Nothing catches [CancelledError] and there is no
    [finally]: when it is raised at the sleep the step ends there. *)
Definition timed_session {St : Type} (fails : string → bool)
    (patterns : list string) (callback : St → string → St) (init : St)
    (b : Mqtt.broker) (messages : list string) (w : wake)
    : exit_path * Mqtt.broker * St :=
  let '(b1, unsubscribes) := subscribe_loop fails patterns b [] in
  let st := List.fold_left (on_message callback b1 unsubscribes) messages init in
  match w with
  | TimerElapsed => (Returned, unsubscribe_loop unsubscribes b1, st)
  | TaskCancelled => (RaisedCancelledError, b1, st)
  end.

(** The session of [async_step_user]: module discovery. *)
Definition async_step_user (fails : string → bool) (b : Mqtt.broker)
    (messages : list string) (w : wake)
    : exit_path * Mqtt.broker * gset string :=
  timed_session fails ConfigFlow.subscribe_patterns
    ConfigFlow.module_discovered ∅ b messages w.

(** The session of [async_step_discover]: sensor discovery. *)
Definition async_step_discover (fails : string → bool)
    (module_path : string) (enable_outputs : bool) (b : Mqtt.broker)
    (messages : list string) (w : wake)
    : exit_path * Mqtt.broker * gmap string descriptor :=
  timed_session fails
    (ConfigFlow.topics_to_subscribe module_path enable_outputs)
    (ConfigFlow.message_received module_path) ∅ b messages w.

(** The unsubscribe functions a session holds after its subscribe loop. *)
Definition created (fails : string → bool) (patterns : list string)
    (b : Mqtt.broker) : list nat :=
  (subscribe_loop fails patterns b []).2.

(** A step that returned with the active subscriptions as they were before
    it, none of [handles] among them. *)
Definition ends_clean {St : Type} (b : Mqtt.broker) (handles : list nat)
    (r : exit_path * Mqtt.broker * St) : Prop :=
  r.1.1 = Returned
  ∧ Mqtt.subscriptions r.1.2 = Mqtt.subscriptions b
  ∧ ∀ h, h ∈ handles → Mqtt.subscriptions r.1.2 !! h = None.

(** A step that ended in [CancelledError] with all of [handles] still
    active. *)
Definition ends_cancelled {St : Type} (handles : list nat)
    (r : exit_path * Mqtt.broker * St) : Prop :=
  r.1.1 = RaisedCancelledError
  ∧ ∀ h, h ∈ handles → is_Some (Mqtt.subscriptions r.1.2 !! h).

(** The patterns of a session whose subscription succeeded. *)
Definition subscribed (fails : string → bool) (patterns : list string)
    : list string :=
  List.filter (λ pattern, negb (fails pattern)) patterns.

(** The topic classifier of a sensor-discovery session: what the session
    stores for a message with topic [full_topic].  The message reaches
    the callback when one of the session's subscriptions matches it. *)
Definition classify (fails : string → bool) (module_base full_topic : string)
    (is_outputs_enabled : bool) : option descriptor :=
  if List.existsb (λ pattern, Mqtt.topic_matches pattern full_topic)
       (subscribed fails
          (ConfigFlow.topics_to_subscribe module_base is_outputs_enabled))
  then ConfigFlow.discovered module_base full_topic
  else None.

(** Every subscription succeeds. *)
Definition no_failure : string → bool := λ _, false.




(** The fields the classifier gives an output found under [full_topic]. *)
Definition output_of (full_topic : string) (d : descriptor) : Prop :=
  sensor_type d = SENSOR_TYPE_OUTPUT
  ∧ zone_id d = Py.last_item (Py.split "/" full_topic)
  ∧ device_class d = "None"
  ∧ auto_enabled d = false.

End Session.

(** ** Entities ([binary_sensor.py], [sensor.py]) *)

(** [module_path.split(".")[-1] if "." in module_path else module_path] *)
Definition module_id (module_path : string) : string :=
  if Py.contains "." module_path then Py.last_item (Py.split "." module_path)
  else module_path.

Module BinarySensor.

(** [DEVICE_CLASS_MAP.get(device_class_str)]: the classes the map knows. *)
Definition DEVICE_CLASS_MAP : list string :=
  [ "door"; "motion"; "smoke"; "safety"; "window"; "garage_door";
    "vibration"; "tamper"; "problem" ].

(** The fields of [SelfMonZoneSensor] the decoder touches, with the
    states handed to [async_write_ha_state] and the warnings logged,
    latest first. *)
Record zone_sensor := ZoneSensor {
  zone_topic : string;
  attr_unique_id : string;
  attr_name : string;
  attr_device_class : option string;
  attr_is_on : option bool;
  written : list (option bool);
  warned : list string
}.

(** [SelfMonZoneSensor.__init__] *)
Definition init (module_path sensor_key : string) (sensor_config : descriptor)
    : zone_sensor :=
  let device_class_str := device_class sensor_config in
  {| zone_topic := topic sensor_config;
     attr_unique_id :=
       "selfmon_" +:+ module_id module_path +:+ "_zone_" +:+ zone_id sensor_config;
     attr_name := name sensor_config;
     attr_device_class :=
       if negb (String.eqb device_class_str "")
          && negb (String.eqb device_class_str "None")
       then List.find (String.eqb device_class_str) DEVICE_CLASS_MAP
       else None;
     attr_is_on := None;
     written := [];
     warned := [] |}.

(** [self.async_write_ha_state()]: the current state goes to the host. *)
Definition async_write_ha_state (s : zone_sensor) : zone_sensor :=
  {| zone_topic := zone_topic s; attr_unique_id := attr_unique_id s;
     attr_name := attr_name s; attr_device_class := attr_device_class s;
     attr_is_on := attr_is_on s;
     written := attr_is_on s :: written s; warned := warned s |}.

Definition set_is_on (v : bool) (s : zone_sensor) : zone_sensor :=
  {| zone_topic := zone_topic s; attr_unique_id := attr_unique_id s;
     attr_name := attr_name s; attr_device_class := attr_device_class s;
     attr_is_on := Some v;
     written := written s; warned := warned s |}.

Definition log_warning (payload : string) (s : zone_sensor) : zone_sensor :=
  {| zone_topic := zone_topic s; attr_unique_id := attr_unique_id s;
     attr_name := attr_name s; attr_device_class := attr_device_class s;
     attr_is_on := attr_is_on s;
     written := written s; warned := payload :: warned s |}.

(** The callback [message_received] of [async_added_to_hass]. *)
Definition message_received (s : zone_sensor) (payload : string) : zone_sensor :=
  if String.eqb payload PAYLOAD_OPEN then async_write_ha_state (set_is_on true s)
  else if String.eqb payload PAYLOAD_CLOSED then async_write_ha_state (set_is_on false s)
  else log_warning payload s.

(** The sensor after each payload of a sequence, in order. *)
Fixpoint run (s : zone_sensor) (payloads : list string) : list zone_sensor :=
  match payloads with
  | [] => []
  | payload :: more =>
      let s' := message_received s payload in s' :: run s' more
  end.

End BinarySensor.

Module Sensor.

(** The fields of [SelfMonTemperatureSensor] the decoder touches; [V] is
    the type of Python's floats. *)
Record temperature_sensor (V : Type) := TemperatureSensor {
  attr_native_value : option V;
  written : list (option V);
  warned : list string
}.
Arguments TemperatureSensor {V}.
Arguments attr_native_value {V}.
Arguments written {V}.
Arguments warned {V}.

(** [SelfMonBaseSensor.__init__] leaves the value unset. *)
Definition init (V : Type) : temperature_sensor V := TemperatureSensor None [] [].

(** The callback [message_received] of
    [SelfMonTemperatureSensor.async_added_to_hass].  [float] is Python's
    builtin on the payload: [Some v] for the value it returns, [None]
    where it raises [ValueError]. *)
Definition message_received {V : Type} (float : string → option V)
    (s : temperature_sensor V) (payload : string) : temperature_sensor V :=
  match float payload with
  | Some v => TemperatureSensor (Some v) (Some v :: written s) (warned s)
  | None => TemperatureSensor (attr_native_value s) (written s) (payload :: warned s)
  end.

Fixpoint run {V : Type} (float : string → option V)
    (s : temperature_sensor V) (payloads : list string)
    : list (temperature_sensor V) :=
  match payloads with
  | [] => []
  | payload :: more =>
      let s' := message_received float s payload in s' :: run float s' more
  end.


End Sensor.

(** ** The steps of the config flow ([SelfMonConfigFlow]) *)

Module Flow.

Local Open Scope nat_scope.

(** [sorted(l)] on strings: by code point, a proper prefix first. *)
Definition sorted (l : list string) : list string := merge_sort String.le l.

(** [sorted(d.items())]: the keys are distinct, so they alone decide. *)
Definition sorted_items (sensors : gmap string descriptor)
    : list (string * descriptor) :=
  merge_sort (λ a b, String.le a.1 b.1) (map_to_list sensors).

(** The fields of the flow object. *)
Record flow := Flow {
  _module_path : string;
  _discovered_modules : gset string;
  _discovered_sensors : gmap string descriptor;
  _current_sensor_index : nat;
  _sensor_keys : list string;
  _enable_outputs : bool
}.

(** [SelfMonConfigFlow.__init__] *)
Definition init : flow := Flow "" ∅ ∅ 0 [] false.

(** The [user_input] of the sensor form: each key may be absent. *)
Record sensor_input := SensorInput {
  input_enabled : option bool;
  input_name : option string;
  input_device_class : option string
}.

(** What the sensor form shows: the placeholders, the defaults of its
    fields (the device class is only asked for a zone input) and
    [last_step]. *)
Record sensor_form := SensorForm {
  form_sensor_id : string;
  form_sensor_num : string;
  form_total_sensors : string;
  form_topic : string;
  default_enabled : bool;
  default_name : string;
  default_device_class : option string;
  last_step : bool
}.

(** What a step hands back to the host, or the exception it raises. *)
Inductive result :=
| ShowForm (step_id : string) (errors : list (string * string))
| ShowSelect (step_id : string) (options : list string)
| ShowSensorForm (form : sensor_form)
| Abort (reason : string)
| CreateEntry (title module_path : string) (sensors : gmap string descriptor)
    (enable_outputs : bool)
| Raise (exception : string).

(** [async_create_entry(title=..., data={...})] as the flow calls it. *)
Definition create_entry (f : flow) : result :=
  CreateEntry "Honeywell Galaxy Alarm" (_module_path f) (_discovered_sensors f)
    (_enable_outputs f).

(** The three assignments a submitted sensor form makes to the sensor's
    dictionary. *)
Definition edit (user_input : sensor_input) (d : descriptor) : descriptor :=
  {| sensor_type := sensor_type d;
     zone_id := zone_id d;
     name := default "" (input_name user_input);
     device_class := default (device_class d) (input_device_class user_input);
     enabled := default true (input_enabled user_input);
     topic := topic d;
     is_prio := is_prio d;
     auto_enabled := auto_enabled d |}.

(** The second half of [async_step_sensor_config]: the entry when every
    sensor was asked, else the form of the current sensor. *)
Definition show_sensor (f : flow) : result :=
  if length (_sensor_keys f) <=? _current_sensor_index f then create_entry f
  else
    match _sensor_keys f !! _current_sensor_index f with
    | None => Raise "IndexError"
    | Some current_key =>
        match _discovered_sensors f !! current_key with
        | None => Raise "KeyError"
        | Some sensor_data =>
            ShowSensorForm
              {| form_sensor_id :=
                   sensor_type sensor_data +:+ " - " +:+ zone_id sensor_data;
                 form_sensor_num :=
                   Py.str (N.of_nat (_current_sensor_index f + 1));
                 form_total_sensors := Py.str (N.of_nat (length (_sensor_keys f)));
                 form_topic := topic sensor_data;
                 default_enabled := enabled sensor_data;
                 default_name := name sensor_data;
                 default_device_class :=
                   if String.eqb (sensor_type sensor_data) SENSOR_TYPE_ZONE_INPUT
                   then Some (device_class sensor_data) else None;
                 last_step :=
                   _current_sensor_index f =? length (_sensor_keys f) - 1 |}
        end
    end.

(** [async_step_sensor_config(user_input)] *)
Definition async_step_sensor_config (f : flow) (user_input : option sensor_input)
    : flow * result :=
  match user_input with
  | None => (f, show_sensor f)
  | Some submitted =>
      match _sensor_keys f !! _current_sensor_index f with
      | None => (f, Raise "IndexError")
      | Some current_key =>
          match _discovered_sensors f !! current_key with
          | None => (f, Raise "KeyError")
          | Some sensor_data =>
              let f' :=
                {| _module_path := _module_path f;
                   _discovered_modules := _discovered_modules f;
                   _discovered_sensors :=
                     <[current_key := edit submitted sensor_data]>
                       (_discovered_sensors f);
                   _current_sensor_index := _current_sensor_index f + 1;
                   _sensor_keys := _sensor_keys f;
                   _enable_outputs := _enable_outputs f |} in
              (f', show_sensor f')
          end
      end
  end.

(** [[key for key, data in sorted(sensors.items())
      if not data.get("auto_enabled", False)]] *)
Definition keys_to_ask (sensors : gmap string descriptor) : list string :=
  (List.filter (λ item, negb (auto_enabled item.2)) (sorted_items sensors)).*1.

(** [async_step_discover]: the session, then what it found decides. *)
Definition async_step_discover (fails : string → bool) (f : flow)
    (b : Mqtt.broker) (messages : list string) (w : Session.wake)
    : flow * Mqtt.broker * result :=
  let '(exit, b', sensors) :=
    Session.async_step_discover fails (_module_path f) (_enable_outputs f)
      b messages w in
  let found :=
    {| _module_path := _module_path f;
       _discovered_modules := _discovered_modules f;
       _discovered_sensors := sensors;
       _current_sensor_index := _current_sensor_index f;
       _sensor_keys := _sensor_keys f;
       _enable_outputs := _enable_outputs f |} in
  match exit with
  | Session.RaisedCancelledError => (found, b', Raise "CancelledError")
  | Session.Returned =>
      if bool_decide (sensors = ∅) then
        (found, b', ShowForm "manual_entry" [("base", "no_sensors_found")])
      else
        let asking :=
          {| _module_path := _module_path f;
             _discovered_modules := _discovered_modules f;
             _discovered_sensors := sensors;
             _current_sensor_index := 0;
             _sensor_keys := keys_to_ask sensors;
             _enable_outputs := _enable_outputs f |} in
        match _sensor_keys asking with
        | [] => (asking, b', create_entry asking)
        | _ :: _ =>
            let '(f', r) := async_step_sensor_config asking None in (f', b', r)
        end
  end.

(** [async_step_output_config(user_input)]: the submitted form may lack
    the key [enable_outputs]. *)
Definition async_step_output_config (fails : string → bool) (f : flow)
    (user_input : option (option bool)) (b : Mqtt.broker)
    (messages : list string) (w : Session.wake)
    : flow * Mqtt.broker * result :=
  match user_input with
  | Some submitted =>
      async_step_discover fails
        {| _module_path := _module_path f;
           _discovered_modules := _discovered_modules f;
           _discovered_sensors := _discovered_sensors f;
           _current_sensor_index := _current_sensor_index f;
           _sensor_keys := _sensor_keys f;
           _enable_outputs := default false submitted |}
        b messages w
  | None => (f, b, ShowForm "output_config" [])
  end.

(** The flow with its module path set. *)
Definition with_module_path (f : flow) (path : string) : flow :=
  {| _module_path := path;
     _discovered_modules := _discovered_modules f;
     _discovered_sensors := _discovered_sensors f;
     _current_sensor_index := _current_sensor_index f;
     _sensor_keys := _sensor_keys f;
     _enable_outputs := _enable_outputs f |}.

(** [async_set_unique_id(path)], [_abort_if_unique_id_configured()] and
    [return await self.async_step_output_config()]. *)
Definition claim_module (configured : gset string) (path : string) : result :=
  if bool_decide (path ∈ configured) then Abort "already_configured"
  else ShowForm "output_config" [].

(** [async_step_select_module(user_input)] *)
Definition async_step_select_module (configured : gset string) (f : flow)
    (user_input : option string) : flow * result :=
  match user_input with
  | Some path => (with_module_path f path, claim_module configured path)
  | None => (f, ShowSelect "select_module" (sorted (elements (_discovered_modules f))))
  end.

(** [async_step_user]: [mqtt_available] is what
    [mqtt.async_wait_for_mqtt_client] answers. *)
Definition async_step_user (fails : string → bool) (configured : gset string)
    (mqtt_available : bool) (f : flow) (b : Mqtt.broker)
    (messages : list string) (w : Session.wake)
    : flow * Mqtt.broker * result :=
  if negb mqtt_available then (f, b, Abort "mqtt_not_available")
  else
    let '(exit, b', modules) := Session.async_step_user fails b messages w in
    let found :=
      {| _module_path := _module_path f;
         _discovered_modules := modules;
         _discovered_sensors := _discovered_sensors f;
         _current_sensor_index := _current_sensor_index f;
         _sensor_keys := _sensor_keys f;
         _enable_outputs := _enable_outputs f |} in
    match exit with
    | Session.RaisedCancelledError => (found, b', Raise "CancelledError")
    | Session.Returned =>
        match elements modules with
        | [] => (found, b', ShowForm "manual_entry" [("base", "no_modules_found")])
        | [path] =>
            (with_module_path found path, b', claim_module configured path)
        | _ :: _ :: _ =>
            let '(f', r) := async_step_select_module configured found None in
            (f', b', r)
        end
    end.



End Flow.

(** ** The options flow ([SelfMonOptionsFlow])

    [dict(config_entry.data.get(CONF_SENSORS, {}))] copies the outer
    dictionary only: the flow's [_sensors] and the entry's data refer to
    the same per-sensor dictionaries.  The model keeps those dictionaries in
    a heap, by address, and both outer dictionaries as maps from topic to
    address. *)

Module Options.

Local Open Scope nat_scope.

(** The per-sensor dictionaries, by address. *)
Abbreviation heap := (gmap nat descriptor).

(** The fields of the flow object; [entry_sensors] is
    [config_entry.data.get(CONF_SENSORS, {})], which the flow never
    reassigns. *)
Record flow := Flow {
  entry_sensors : gmap string nat;
  _sensors : gmap string nat;
  _sensor_keys : list string;
  _current_sensor_index : nat
}.

(** [SelfMonOptionsFlow.__init__(config_entry)] *)
Definition init (sensors_of_entry : gmap string nat) : flow :=
  Flow sensors_of_entry sensors_of_entry [] 0.

(** What an outer dictionary shows: each topic with the dictionary its
    address holds. *)
Definition view (h : heap) (outer : gmap string nat) : gmap string descriptor :=
  omap (λ address, h !! address) outer.

Inductive result :=
| ShowInit
| ShowSensor (sensor_id : string) (default_enabled : bool) (default_name : string)
    (default_device_class : option string) (last_step : bool)
| UpdateEntry (new_sensors : gmap string nat)
| CreateEntry
| Raise (exception : string).
(* [UpdateEntry] stands for [async_update_entry] with the entry's data and
   the sensors replaced, followed by the empty entry the options flow
   ends with. *)

(** The form of the current sensor. *)
Definition show_sensor (h : heap) (f : flow) : result :=
  match _sensor_keys f !! _current_sensor_index f with
  | None => Raise "IndexError"
  | Some current_key =>
      match _sensors f !! current_key ≫= (h !!.) with
      | None => Raise "KeyError"
      | Some sensor_data =>
          ShowSensor (sensor_type sensor_data +:+ " - " +:+ zone_id sensor_data)
            (enabled sensor_data) (name sensor_data)
            (if String.eqb (sensor_type sensor_data) SENSOR_TYPE_ZONE_INPUT
             then Some (device_class sensor_data) else None)
            (_current_sensor_index f =? length (_sensor_keys f) - 1)
      end
  end.

(** [async_step_sensor_config(user_input)]: the assignments go to the
    dictionary at the sensor's address. *)
Definition async_step_sensor_config (h : heap) (f : flow)
    (user_input : option Flow.sensor_input) : heap * flow * result :=
  match user_input with
  | None => (h, f, show_sensor h f)
  | Some submitted =>
      match _sensor_keys f !! _current_sensor_index f with
      | None => (h, f, Raise "IndexError")
      | Some current_key =>
          match _sensors f !! current_key with
          | None => (h, f, Raise "KeyError")
          | Some address =>
              match h !! address with
              | None => (h, f, Raise "KeyError")
              | Some sensor_data =>
                  let h' := <[address := Flow.edit submitted sensor_data]> h in
                  let f' := Flow (entry_sensors f) (_sensors f) (_sensor_keys f)
                              (_current_sensor_index f + 1) in
                  if length (_sensor_keys f') <=? _current_sensor_index f'
                  then (h', f', UpdateEntry (_sensors f'))
                  else (h', f', show_sensor h' f')
              end
          end
      end
  end.

(** [async_step_init(user_input)] *)
Definition async_step_init (h : heap) (f : flow) (submitted : bool)
    : heap * flow * result :=
  if submitted then
    let f' := Flow (entry_sensors f) (_sensors f)
                (Flow.keys_to_ask (view h (_sensors f))) 0 in
    match _sensor_keys f' with
    | [] => (h, f', CreateEntry)
    | _ :: _ => async_step_sensor_config h f' None
    end
  else (h, f, ShowInit).

End Options.

(** ** Setting up and unloading an entry ([__init__.py]) and the platforms *)

Module Integration.

(** A config entry: its id and the keys of [entry.data], each of which may
    be absent. *)
Record config_entry := ConfigEntry {
  entry_id : string;
  data_module_path : option string;
  data_sensors : option (gmap string descriptor);
  data_enable_outputs : option bool
}.

(** The dictionary kept under [hass.data[DOMAIN][entry_id]]. *)
Record runtime := Runtime {
  module_path : string;
  sensors : gmap string descriptor;
  enable_outputs : bool
}.

(** [hass.data.get(DOMAIN)]: absent before the first setup. *)
Abbreviation domain_data := (option (gmap string runtime)).

(** [async_setup_entry] up to the platform setups: the new
    [hass.data[DOMAIN]], and whether [entry.data[CONF_MODULE_PATH]] raised
    [KeyError] (the [setdefault] is done by then). *)
Definition async_setup_entry (hass_data : domain_data) (entry : config_entry)
    : domain_data * option bool :=
  let domain := default ∅ hass_data in
  match data_module_path entry with
  | None => (Some domain, None)
  | Some path =>
      (Some (<[entry_id entry :=
                 Runtime path (default ∅ (data_sensors entry))
                   (default false (data_enable_outputs entry))]> domain),
       Some true)
  end.

(** [async_unload_entry]: [unload_ok] is what the host's
    [async_unload_platforms] answers; [None] is the [KeyError] of [pop] or
    of [hass.data[DOMAIN]]. *)
Definition async_unload_entry (hass_data : domain_data) (entry : config_entry)
    (unload_ok : bool) : domain_data * option bool :=
  if unload_ok then
    match hass_data with
    | None => (hass_data, None)
    | Some domain =>
        match domain !! entry_id entry with
        | None => (hass_data, None)
        | Some _ => (Some (delete (entry_id entry) domain), Some true)
        end
    end
  else (hass_data, Some false).

(** The classes of [sensor.py]. *)
Inductive sensor_class :=
| SelfMonOutputSensor
| SelfMonTemperatureSensor
| SelfMonVKPSensor
| SelfMonVersionSensor.

(** What the constructors of [sensor.py] set. *)
Record sensor_entity := SensorEntity {
  class : sensor_class;
  attr_unique_id : string;
  attr_name : string;
  attr_icon : option string;
  entity_topic : string
}.

Definition output_sensor (path : string) (sensor_config : descriptor)
    : sensor_entity :=
  SensorEntity SelfMonOutputSensor
    ("selfmon_" +:+ module_id path +:+ "_output_" +:+ zone_id sensor_config)
    (name sensor_config) None (topic sensor_config).

Definition temperature_sensor (path : string) (sensor_config : descriptor)
    : sensor_entity :=
  SensorEntity SelfMonTemperatureSensor
    ("selfmon_" +:+ module_id path +:+ "_temperature")
    (name sensor_config) None (topic sensor_config).

Definition vkp_sensor (path : string) (sensor_config : descriptor)
    : sensor_entity :=
  SensorEntity SelfMonVKPSensor
    ("selfmon_" +:+ module_id path +:+ "_vkp_" +:+ zone_id sensor_config)
    (name sensor_config) None (topic sensor_config).

Definition version_sensor (path : string) (sensor_config : descriptor)
    : sensor_entity :=
  SensorEntity SelfMonVersionSensor
    ("selfmon_" +:+ module_id path +:+ "_version")
    (name sensor_config) (Some "mdi:information-outline") (topic sensor_config).

(** The constructor of a class. *)
Definition build (c : sensor_class) : string → descriptor → sensor_entity :=
  match c with
  | SelfMonOutputSensor => output_sensor
  | SelfMonTemperatureSensor => temperature_sensor
  | SelfMonVKPSensor => vkp_sensor
  | SelfMonVersionSensor => version_sensor
  end.

(** The five sensor types. *)
Definition SENSOR_TYPES : list string :=
  [ SENSOR_TYPE_ZONE_INPUT; SENSOR_TYPE_OUTPUT; SENSOR_TYPE_TEMPERATURE;
    SENSOR_TYPE_VKP_LINE; SENSOR_TYPE_VERSION ].

(** The loop of [binary_sensor.async_setup_entry] over the items of the
    sensors dictionary. *)
Fixpoint zone_entities (path : string) (items : list (string * descriptor))
    : list BinarySensor.zone_sensor :=
  match items with
  | [] => []
  | (sensor_key, sensor_data) :: more =>
      if negb (enabled sensor_data) then zone_entities path more
      else if String.eqb (sensor_type sensor_data) SENSOR_TYPE_ZONE_INPUT
      then BinarySensor.init path sensor_key sensor_data :: zone_entities path more
      else zone_entities path more
  end.

(** The loop of [sensor.async_setup_entry]. *)
Fixpoint sensor_entities (path : string) (items : list (string * descriptor))
    : list sensor_entity :=
  match items with
  | [] => []
  | (sensor_key, sensor_data) :: more =>
      if negb (enabled sensor_data) then sensor_entities path more
      else if String.eqb (sensor_type sensor_data) SENSOR_TYPE_OUTPUT
      then output_sensor path sensor_data :: sensor_entities path more
      else if String.eqb (sensor_type sensor_data) SENSOR_TYPE_TEMPERATURE
      then temperature_sensor path sensor_data :: sensor_entities path more
      else if String.eqb (sensor_type sensor_data) SENSOR_TYPE_VKP_LINE
      then vkp_sensor path sensor_data :: sensor_entities path more
      else if String.eqb (sensor_type sensor_data) SENSOR_TYPE_VERSION
      then version_sensor path sensor_data :: sensor_entities path more
      else sensor_entities path more
  end.

(** [binary_sensor.async_setup_entry] and [sensor.async_setup_entry]: the
    entities handed to [async_add_entities]; [None] is the [KeyError] of
    [hass.data[DOMAIN][entry_id]].  The items come in the order of the
    map's list, where Python has the order of insertion. *)
Definition binary_sensor_setup (hass_data : domain_data) (id : string)
    : option (list BinarySensor.zone_sensor) :=
  data ← hass_data ≫= (.!! id);
  Some (zone_entities (module_path data) (map_to_list (sensors data))).

Definition sensor_setup (hass_data : domain_data) (id : string)
    : option (list sensor_entity) :=
  data ← hass_data ≫= (.!! id);
  Some (sensor_entities (module_path data) (map_to_list (sensors data))).

(** The callback [message_received] of the output, keypad and version
    sensors: the value and the states written to the host, latest first.
    The output sensor tests [payload in (PAYLOAD_ON, PAYLOAD_OFF)] and
    assigns the payload in either branch. *)
Record text_sensor := TextSensor {
  attr_native_value : option string;
  written : list string
}.

Definition text_message_received (s : text_sensor) (payload : string)
    : text_sensor :=
  TextSensor (Some payload) (payload :: written s).

Definition output_message_received (s : text_sensor) (payload : string)
    : text_sensor :=
  if String.eqb payload "ON" || String.eqb payload "OFF"
  then TextSensor (Some payload) (payload :: written s)
  else TextSensor (Some payload) (payload :: written s).

(** What a payload means to the zone sensor, when it means something. *)
Definition zone_state (payload : string) : option bool :=
  if String.eqb payload PAYLOAD_OPEN then Some true
  else if String.eqb payload PAYLOAD_CLOSED then Some false
  else None.

End Integration.

(** * Properties *)

(** ** Facts about the string builtins *)

#[local] Arguments String.append !_ _ / : simpl nomatch.

Section PyFacts.

Lemma startswith_app (p r : string) : Py.startswith p (p +:+ r) = true.
Proof.
  induction p as [|c p IH]; simpl; [reflexivity|].
  now rewrite Ascii.eqb_refl.
Qed.

Lemma startswith_inv (p s : string) :
  Py.startswith p s = true → ∃ r, s = p +:+ r.
Proof.
  revert s. induction p as [|c p IH]; intros s H.
  - now exists s.
  - destruct s as [|b s]; simpl in H; [discriminate|].
    destruct (Ascii.eqb_spec c b) as [->|]; [|discriminate].
    destruct (IH _ H) as [r ->]. now exists r.
Qed.

Lemma drop_app (p r : string) : Py.drop (String.length p) (p +:+ r) = r.
Proof. induction p; simpl; auto. Qed.

Lemma remove_first_prefix (p r : string) : Py.remove_first p (p +:+ r) = r.
Proof.
  assert (Hunfold : ∀ s, Py.remove_first p s
            = if Py.startswith p s then Py.drop (String.length p) s
              else match s with
                   | EmptyString => EmptyString
                   | String c s' => String c (Py.remove_first p s')
                   end) by (intros []; reflexivity).
  rewrite Hunfold, startswith_app. apply drop_app.
Qed.

Lemma app_assoc_string (a b c : string) : (a +:+ b) +:+ c = a +:+ (b +:+ c).
Proof. induction a; simpl; congruence. Qed.

Lemma split_nonempty (sep : ascii) (s : string) : Py.split sep s ≠ [].
Proof.
  induction s as [|c s IH]; simpl; [discriminate|].
  destruct (Ascii.eqb c sep); [discriminate|].
  destruct (Py.split sep s); [contradiction|discriminate].
Qed.

(** Splitting at a separator splits the list of segments. *)
Lemma split_sep (sep : ascii) (a b : string) :
  Py.split sep (a +:+ String sep b) = Py.split sep a ++ Py.split sep b.
Proof.
  induction a as [|c a IH]; simpl.
  - now rewrite Ascii.eqb_refl.
  - destruct (Ascii.eqb c sep); [now rewrite IH|].
    rewrite IH. destruct (Py.split sep a) eqn:E; [|reflexivity].
    now apply split_nonempty in E.
Qed.

Lemma last_item_app (l1 l2 : list string) :
  l2 ≠ [] → Py.last_item (l1 ++ l2) = Py.last_item l2.
Proof.
  intros H. unfold Py.last_item.
  induction l1 as [|x l1 IH]; [reflexivity|].
  simpl. destruct (l1 ++ l2) eqn:E; [|exact IH].
  apply app_eq_nil in E as [_ ->]. contradiction.
Qed.

(** The last segment of a path is the last segment of what follows any
    of its separators. *)
Lemma last_segment_sep (sep : ascii) (a b : string) :
  Py.last_item (Py.split sep (a +:+ String sep b))
  = Py.last_item (Py.split sep b).
Proof. rewrite split_sep. apply last_item_app, split_nonempty. Qed.






End PyFacts.

(** ** The zone heuristic *)




(** ** Matching topics against the session's filters *)

Section MqttFacts.

(** Levels shared by filter and topic match one another; what decides is
    the rest. *)
Lemma match_levels_shared (shared rest levels : list string) (wild : bool) :
  shared ≠ [] → rest ≠ [] →
  Mqtt.match_levels wild (shared ++ rest) (shared ++ levels)
  = Mqtt.match_levels true rest levels.
Proof.
  intros Hshared Hrest. revert wild.
  induction shared as [|level shared IH]; intros wild; [contradiction|].
  cbn [app Mqtt.match_levels]. rewrite String.eqb_refl. cbn [orb andb].
  destruct shared as [|level' shared].
  - cbn [app]. destruct rest; [contradiction|].
    now rewrite andb_false_r.
  - rewrite (IH ltac:(discriminate)). cbn [app]. now rewrite andb_false_r.
Qed.

(** A filter and a topic under the same base: the base plays no role. *)
Lemma topic_matches_under_base (base suffix relative : string) :
  Mqtt.topic_matches (base +:+ String "/" suffix) (base +:+ String "/" relative)
  = Mqtt.match_levels true (Py.split "/" suffix) (Py.split "/" relative).
Proof.
  unfold Mqtt.topic_matches. rewrite !split_sep.
  apply match_levels_shared; apply split_nonempty.
Qed.

(** Literal levels of a filter are found as they are in a topic it
    matches. *)
Lemma match_levels_literal (levels rest topic_levels : list string) (wild : bool) :
  List.forallb (λ level, negb (Mqtt.wildcard_level level)) levels = true →
  Mqtt.match_levels wild (levels ++ rest) topic_levels = true →
  ∃ more, topic_levels = levels ++ more.
Proof.
  revert topic_levels wild.
  induction levels as [|level levels IH]; intros topic_levels wild Hlit Hm.
  - now exists topic_levels.
  - cbn [forallb] in Hlit. apply andb_prop in Hlit as [Hlevel Hlit].
    unfold Mqtt.wildcard_level in Hlevel.
    apply negb_true_iff, orb_false_elim in Hlevel as [Hplus Hhash].
    cbn [app Mqtt.match_levels] in Hm.
    rewrite Hplus, Hhash in Hm.
    destruct topic_levels as [|t ts]; [now destruct wild|].
    assert (Hm' : String.eqb level t && Mqtt.match_levels true (levels ++ rest) ts = true)
      by (destruct wild, (String.eqb level t); exact Hm).
    clear Hm. apply andb_prop in Hm' as [Heq Hm].
    apply String.eqb_eq in Heq as <-.
    destruct (IH _ _ Hlit Hm) as [more ->]. now exists more.
Qed.

(** Segments that continue the segments of [base] come from a string that
    continues [base] after a separator. *)
Lemma split_continues (sep : ascii) (base s : string) (more : list string) :
  more ≠ [] → Py.split sep s = Py.split sep base ++ more →
  ∃ r, s = base +:+ String sep r.
Proof.
  intros Hmore. revert s.
  induction base as [|c base IH]; intros s Hs.
  - cbn in Hs. destruct s as [|c' s]; cbn in Hs.
    + destruct more; [contradiction|discriminate].
    + destruct (Ascii.eqb_spec c' sep) as [->|]; [now exists s|].
      destruct (Py.split sep s); discriminate.
  - cbn [Py.split] in Hs. destruct (Ascii.eqb_spec c sep) as [->|Hc].
    + destruct s as [|c' s]; cbn in Hs.
      { injection Hs as Hs. symmetry in Hs.
        apply app_eq_nil in Hs as [_ ->]. contradiction. }
      destruct (Ascii.eqb_spec c' sep) as [->|].
      * injection Hs as Hs. destruct (IH _ Hs) as [r ->]. now exists r.
      * destruct (Py.split sep s); discriminate.
    + destruct (Py.split sep base) as [|seg segs] eqn:Eb;
        [now apply split_nonempty in Eb|].
      destruct s as [|c' s]; cbn in Hs; [discriminate|].
      destruct (Ascii.eqb_spec c' sep) as [->|]; [discriminate|].
      destruct (Py.split sep s) as [|seg' segs'] eqn:Es;
        [now apply split_nonempty in Es|].
      injection Hs as -> -> ->.
      destruct (IH s) as [r ->]; [now rewrite Es|]. now exists r.
Qed.

(** Under a base without wildcard levels, a filter [base/suffix] only
    matches topics that begin with [base/]. *)
Lemma topic_matches_literal_base (base suffix full_topic : string) :
  Mqtt.literal base = true →
  Mqtt.wildcard_level (List.hd "" (Py.split "/" suffix)) = false →
  Mqtt.topic_matches (base +:+ String "/" suffix) full_topic = true →
  ∃ relative, full_topic = base +:+ String "/" relative.
Proof.
  intros Hbase Hfirst Hm. unfold Mqtt.topic_matches in Hm.
  rewrite split_sep in Hm.
  destruct (Py.split "/" suffix) as [|first rest] eqn:Es;
    [now apply split_nonempty in Es|].
  cbn [hd] in Hfirst.
  replace (Py.split "/" base ++ first :: rest)
    with ((Py.split "/" base ++ [first]) ++ rest) in Hm
    by now rewrite <- app_assoc.
  apply match_levels_literal in Hm as [more Hm].
  - rewrite <- app_assoc in Hm.
    now apply split_continues in Hm.
  - rewrite forallb_app. unfold Mqtt.literal in Hbase. rewrite Hbase.
    cbn. now rewrite Hfirst.
Qed.

End MqttFacts.

(** ** The topic classifier *)

Section Classifier.

Variable fails : string → bool.

Lemma existsb_subscribed (f : string → bool) (patterns : list string) :
  List.existsb f (Session.subscribed fails patterns)
  = List.existsb (λ pattern, negb (fails pattern) && f pattern) patterns.
Proof.
  unfold Session.subscribed.
  induction patterns as [|p patterns IH]; [reflexivity|].
  cbn [List.filter List.existsb]. destruct (fails p); cbn; now rewrite IH.
Qed.

(** The relative topic the callback computes for a topic under the base. *)
Lemma relative_topic_under_base (base relative : string) :
  Py.remove_first (base +:+ "/") (base +:+ String "/" relative) = relative.
Proof.
  replace (base +:+ String "/" relative) with ((base +:+ "/") +:+ relative)
    by now rewrite app_assoc_string.
  apply remove_first_prefix.
Qed.

(** The classifier on a topic under the base, in terms of the relative
    topic alone. *)
Lemma classify_under_base (base relative : string) (outputs : bool) :
  Session.classify fails base (base +:+ String "/" relative) outputs
  = if List.existsb
         (λ suffix, negb (fails (base +:+ String "/" suffix))
                    && Mqtt.match_levels true (Py.split "/" suffix)
                         (Py.split "/" relative))
         ([ "prio/inputs/read/#"; "vrio/inputs/read/#"; "temperature";
            "vkp/display/line1"; "vkp/display/line2"; "version" ]
          ++ (if outputs then [ "prio/outputs/#"; "vrio/outputs/#" ] else []))
    then ConfigFlow.discovered base (base +:+ String "/" relative)
    else None.
Proof.
  unfold Session.classify. rewrite existsb_subscribed.
  unfold ConfigFlow.topics_to_subscribe.
  rewrite !existsb_app. destruct outputs; cbn [List.existsb];
    unfold TOPIC_PRIO_INPUTS, TOPIC_VRIO_INPUTS, TOPIC_TEMPERATURE,
      TOPIC_VKP_LINE1, TOPIC_VKP_LINE2, TOPIC_VERSION,
      TOPIC_PRIO_OUTPUTS, TOPIC_VRIO_OUTPUTS;
    cbn [String.append]; rewrite !topic_matches_under_base; reflexivity.
Qed.

End Classifier.

Lemma discovered_output (base s : string) (vrio : bool) :
  let relative := (if vrio then "vrio/outputs/" else "prio/outputs/") +:+ s in
  ∃ d, ConfigFlow.discovered base (base +:+ String "/" relative) = Some d
       ∧ Session.output_of (base +:+ String "/" relative) d.
Proof.
  intros relative. unfold ConfigFlow.discovered.
  rewrite relative_topic_under_base.
  destruct vrio; subst relative; cbn [String.append].
  all: eexists; (split; [cbn; reflexivity|]); unfold Session.output_of;
    cbn [sensor_type zone_id device_class auto_enabled];
    rewrite last_segment_sep; auto.
Qed.

(** C1. With outputs disabled the classifier yields nothing for a topic
    under [prio/outputs/] or [vrio/outputs/] of the module, whatever the
    base and the segment.  With outputs enabled, and the branch's
    subscription in place, it yields an output whose zone id is the final
    path segment of the topic, with device class ["None"] and not
    auto-enabled. *)
Theorem outputs_only_when_enabled (fails : string → bool) (base s : string) :
  let prio := base +:+ "/prio/outputs/" +:+ s in
  let vrio := base +:+ "/vrio/outputs/" +:+ s in
  Session.classify fails base prio false = None
  ∧ Session.classify fails base vrio false = None
  ∧ (if fails (base +:+ "/prio/outputs/#")
     then Session.classify fails base prio true = None
     else ∃ d, Session.classify fails base prio true = Some d
               ∧ Session.output_of prio d)
  ∧ (if fails (base +:+ "/vrio/outputs/#")
     then Session.classify fails base vrio true = None
     else ∃ d, Session.classify fails base vrio true = Some d
               ∧ Session.output_of vrio d).
Proof.
  cbn zeta. cbn [String.append].
  rewrite !classify_under_base.
  cbn [app List.existsb]. cbn.
  rewrite !andb_false_r, !andb_true_r. cbn [orb].
  split; [reflexivity|]. split; [reflexivity|].
  split.
  - destruct (fails (base +:+ "/prio/outputs/#")); cbn [negb orb]; [reflexivity|].
    apply (discovered_output base s false).
  - destruct (fails (base +:+ "/vrio/outputs/#")); cbn [negb orb]; [reflexivity|].
    apply (discovered_output base s true).
Qed.

Lemma subscription_under_base (base pattern : string) (outputs : bool) :
  pattern ∈ ConfigFlow.topics_to_subscribe base outputs →
  ∃ suffix, pattern = base +:+ String "/" suffix
            ∧ Mqtt.wildcard_level (List.hd "" (Py.split "/" suffix)) = false.
Proof.
  unfold ConfigFlow.topics_to_subscribe. intros Hin.
  apply elem_of_app in Hin as [Hin|Hin].
  - repeat (apply elem_of_cons in Hin as [->|Hin];
            [eexists; split; [reflexivity|reflexivity]|]).
    now apply elem_of_nil in Hin.
  - destruct outputs; [|now apply elem_of_nil in Hin].
    repeat (apply elem_of_cons in Hin as [->|Hin];
            [eexists; split; [reflexivity|reflexivity]|]).
    now apply elem_of_nil in Hin.
Qed.

Lemma delivered_under_base (fails : string → bool) (base full_topic : string)
    (outputs : bool) :
  Mqtt.literal base = true →
  List.existsb (λ pattern, Mqtt.topic_matches pattern full_topic)
    (Session.subscribed fails (ConfigFlow.topics_to_subscribe base outputs)) = true →
  ∃ relative, full_topic = base +:+ String "/" relative.
Proof.
  intros Hbase Hex. apply existsb_exists in Hex as (pattern & Hin & Hm).
  unfold Session.subscribed in Hin. apply filter_In in Hin as [Hin _].
  apply list_elem_of_In, subscription_under_base in Hin as (suffix & -> & Hfirst).
  eauto using topic_matches_literal_base.
Qed.

(** C3. For a module base without wildcard levels, a topic that does not
    begin with the base followed by [/] is classified as nothing, whether
    outputs are enabled or not. *)
Theorem foreign_topic_ignored (fails : string → bool) (base full_topic : string)
    (outputs : bool) :
  Mqtt.literal base = true →
  Py.startswith (base +:+ "/") full_topic = false →
  Session.classify fails base full_topic outputs = None.
Proof.
  intros Hbase Hforeign. unfold Session.classify.
  destruct (List.existsb _ _) eqn:Hex; [|reflexivity].
  apply delivered_under_base in Hex as [relative ->]; [|exact Hbase].
  replace (base +:+ String "/" relative) with ((base +:+ "/") +:+ relative) in Hforeign
    by now rewrite app_assoc_string.
  now rewrite startswith_app in Hforeign.
Qed.

Lemma foreign_topic_ignored_witness :
  Session.classify Session.no_failure "selfmon/vmod.010aa1" "other/module/topic" false = None.
Proof.
  apply foreign_topic_ignored; reflexivity.
Defined.

(** The condition on the base is needed: under a base of three [+]
    levels, which no module path is, a topic that does not begin with the
    base reaches rule 1 of the callback. *)
Example wildcard_base_reaches_callback :
  Mqtt.literal "+/+/+" = false
  ∧ Py.startswith "+/+/+/" "prio/inputs/read/prio/inputs/read/7" = false
  ∧ ∃ d, Session.classify Session.no_failure "+/+/+"
           "prio/inputs/read/prio/inputs/read/7" false = Some d
         ∧ zone_id d = "7".
Proof.
  split; [reflexivity|]. split; [reflexivity|].
  eexists. split; [vm_compute; reflexivity|reflexivity].
Qed.

(** The other kinds on the specification's examples, and a window in which
    nothing arrives. *)
Example classify_fixed_topics :
  let base := "selfmon/vmod.010aa1" in
  (∃ d, Session.classify Session.no_failure base (base +:+ "/temperature") false
        = Some d
        ∧ sensor_type d = SENSOR_TYPE_TEMPERATURE ∧ zone_id d = "temperature"
        ∧ name d = "Temperature Sensor" ∧ auto_enabled d = true)
  ∧ (∃ d, Session.classify Session.no_failure base (base +:+ "/vkp/display/line2")
          false = Some d
          ∧ sensor_type d = SENSOR_TYPE_VKP_LINE ∧ zone_id d = "line2"
          ∧ name d = "Keypad Line 2" ∧ auto_enabled d = true)
  ∧ (∃ d, Session.classify Session.no_failure base (base +:+ "/version") false
          = Some d
          ∧ sensor_type d = SENSOR_TYPE_VERSION ∧ zone_id d = "version"
          ∧ name d = "Module Version" ∧ auto_enabled d = true)
  ∧ Session.classify Session.no_failure base (base +:+ "/prio/outputs/3") false
    = None
  ∧ (∃ d, Session.classify Session.no_failure base (base +:+ "/prio/outputs/3")
          true = Some d
          ∧ sensor_type d = SENSOR_TYPE_OUTPUT ∧ zone_id d = "3"
          ∧ name d = "Alarm - Output 3")
  ∧ (Session.async_step_discover Session.no_failure base false Mqtt.idle []
       Session.TimerElapsed).2 = ∅.
Proof.
  cbn zeta. repeat split; try (eexists; split; [vm_compute; reflexivity|]);
    repeat split.
Qed.









(** ** Unique ids of zone entities *)






(** ** What discovery stores *)

Lemma discovered_enabled (module_path msg_topic : string) (d : descriptor) :
  ConfigFlow.discovered module_path msg_topic = Some d → enabled d = true.
Proof.
  unfold ConfigFlow.discovered. intros H.
  repeat match type of H with
         | (if ?c then _ else _) = _ => destruct c
         end; try discriminate; now injection H as <-.
Qed.

Lemma message_received_enabled (module_path msg_topic : string)
    (sensors : gmap string descriptor) :
  map_Forall (λ _ d, enabled d = true) sensors →
  map_Forall (λ _ d, enabled d = true)
    (ConfigFlow.message_received module_path sensors msg_topic).
Proof.
  intros Hall. unfold ConfigFlow.message_received.
  destruct (ConfigFlow.discovered module_path msg_topic) as [d|] eqn:Hd; [|exact Hall].
  apply map_Forall_insert_2; [|exact Hall]. eauto using discovered_enabled.
Qed.

(** A property of the state that the callback keeps holds after the
    window, whatever arrived. *)
Lemma window_invariant {St : Type} (P : St → Prop) (callback : St → string → St)
    (b : Mqtt.broker) (unsubscribes : list nat) (messages : list string) (st : St) :
  (∀ st' t, P st' → P (callback st' t)) → P st →
  P (List.fold_left (Session.on_message callback b unsubscribes) messages st).
Proof.
  intros Hstep. revert st.
  induction messages as [|m messages IH]; intros st Hst; [exact Hst|].
  cbn [List.fold_left]. apply IH. unfold Session.on_message.
  generalize (Mqtt.receivers b unsubscribes m). intros hs. revert st Hst.
  induction hs as [|h hs IHh]; intros st Hst; [exact Hst|].
  cbn [List.fold_left]. auto.
Qed.

(** C10. Every descriptor the sensor-discovery callback stores has
    [enabled = true]: all those a discovery session holds at its end, and
    the one built for any single topic.  Each of the five kinds occurs, the
    zone input and the output with [auto_enabled = false]. *)
Theorem stored_descriptors_enabled (fails : string → bool) (module_path : string)
    (enable_outputs : bool) (b : Mqtt.broker) (messages : list string)
    (w : Session.wake) (msg_topic : string) :
  map_Forall (λ _ d, enabled d = true)
    (Session.async_step_discover fails module_path enable_outputs b messages w).2
  ∧ from_option (λ d, enabled d = true) True
      (ConfigFlow.discovered module_path msg_topic)
  ∧ Forall
      (λ '(relative, kind, auto),
         ∃ d, ConfigFlow.discovered module_path (module_path +:+ String "/" relative)
              = Some d
              ∧ sensor_type d = kind ∧ auto_enabled d = auto ∧ enabled d = true)
      [ ("prio/inputs/read/1", SENSOR_TYPE_ZONE_INPUT, false);
        ("prio/outputs/1", SENSOR_TYPE_OUTPUT, false);
        ("temperature", SENSOR_TYPE_TEMPERATURE, true);
        ("vkp/display/line2", SENSOR_TYPE_VKP_LINE, true);
        ("version", SENSOR_TYPE_VERSION, true) ].
Proof.
  split; [|split].
  - unfold Session.async_step_discover, Session.timed_session.
    destruct (Session.subscribe_loop _ _ _ _) as [b1 unsubscribes].
    assert (map_Forall (λ _ d, enabled d = true)
              (List.fold_left
                 (Session.on_message (ConfigFlow.message_received module_path)
                    b1 unsubscribes) messages ∅)).
    { apply (window_invariant (map_Forall (λ _ d, enabled d = true))).
      - intros st t. apply message_received_enabled.
      - apply map_Forall_empty. }
    now destruct w.
  - destruct (ConfigFlow.discovered module_path msg_topic) eqn:Hd; [|exact I].
    cbn. eauto using discovered_enabled.
  - repeat constructor; unfold ConfigFlow.discovered;
      rewrite relative_topic_under_base; eexists; (split; [cbn; reflexivity|]);
      repeat split.
Qed.


(** ** Payload decoders *)

(** C6. The zone decoder: ["OPEN"] sets the state to on and ["CLOSED"] to
    off, each writing the state to the host; any other payload leaves the
    state as it was, writes nothing and logs a warning.  The payloads
    ["OPEN"], ["CLOSED"], ["garbage"] give the states true, false, false
    with two writes and one warning. *)
Theorem zone_decoder (s : BinarySensor.zone_sensor) (payload : string)
    (module_path sensor_key : string) (sensor_config : descriptor) :
  (let s' := BinarySensor.message_received s "OPEN" in
   BinarySensor.attr_is_on s' = Some true
   ∧ BinarySensor.written s' = Some true :: BinarySensor.written s
   ∧ BinarySensor.warned s' = BinarySensor.warned s)
  ∧ (let s' := BinarySensor.message_received s "CLOSED" in
     BinarySensor.attr_is_on s' = Some false
     ∧ BinarySensor.written s' = Some false :: BinarySensor.written s
     ∧ BinarySensor.warned s' = BinarySensor.warned s)
  ∧ (let s' := BinarySensor.message_received s payload in
     if String.eqb payload "OPEN" || String.eqb payload "CLOSED" then True
     else BinarySensor.attr_is_on s' = BinarySensor.attr_is_on s
          ∧ BinarySensor.written s' = BinarySensor.written s
          ∧ BinarySensor.warned s' = payload :: BinarySensor.warned s)
  ∧ (let after := BinarySensor.run
                    (BinarySensor.init module_path sensor_key sensor_config)
                    ["OPEN"; "CLOSED"; "garbage"] in
     List.map BinarySensor.attr_is_on after = [Some true; Some false; Some false]
     ∧ List.map BinarySensor.written after
       = [[Some true]; [Some false; Some true]; [Some false; Some true]]
     ∧ List.map BinarySensor.warned after = [[]; []; ["garbage"]]).
Proof.
  split; [now cbn|]. split; [now cbn|]. split; [|now cbn].
  cbn zeta. unfold BinarySensor.message_received, PAYLOAD_OPEN, PAYLOAD_CLOSED.
  destruct (String.eqb payload "OPEN"); [exact I|].
  destruct (String.eqb payload "CLOSED"); [exact I|]. now cbn.
Qed.



(** ** Manual entry of the module path *)

Lemma hex_run_all (s : string) :
  ConfigFlow.all_hex s = true → ConfigFlow.hex_run s = s ∧ ConfigFlow.after_hex_run s = "".
Proof.
  induction s as [|c s IH]; [now split|]. cbn.
  destruct (ConfigFlow.is_hex c); [|discriminate]. cbn. intros H.
  destruct (IH H) as [-> ->]. now split.
Qed.

Lemma after_hex_run_empty (s : string) :
  ConfigFlow.after_hex_run s = "" → ConfigFlow.all_hex s = true.
Proof.
  induction s as [|c s IH]; [reflexivity|]. cbn.
  destruct (ConfigFlow.is_hex c); [exact IH|discriminate].
Qed.

Lemma hex_run_before_line_feed (s : string) :
  ConfigFlow.after_hex_run s = String "010" "" →
  ∃ digits, s = digits +:+ String "010" "" ∧ ConfigFlow.all_hex digits = true
            ∧ ConfigFlow.hex_run s = digits.
Proof.
  induction s as [|c s IH]; [discriminate|]. cbn.
  destruct (ConfigFlow.is_hex c) eqn:Hc.
  - intros H. destruct (IH H) as (digits & -> & Hd & Hr).
    exists (String c digits). cbn. now rewrite Hc, Hd, Hr.
  - intros [= -> ->]. now exists "".
Qed.

(** What [re.match] with [$] accepts: the specification's pattern, and the
    pattern followed by one line feed. *)
Lemma valid_module_path_cases (s : string) :
  ConfigFlow.valid_module_path s = true ↔
  ConfigFlow.module_path_pattern s = true
  ∨ ∃ s0, s = s0 +:+ String "010" "" ∧ ConfigFlow.module_path_pattern s0 = true.
Proof.
  unfold ConfigFlow.valid_module_path, ConfigFlow.module_path_pattern.
  destruct (Py.startswith ConfigFlow.MODULE_PREFIX s) eqn:Hp.
  2:{ split; [discriminate|]. intros [H|(s0 & -> & H)]; [discriminate|].
      apply andb_prop in H as [H _]. apply startswith_inv in H as [r ->].
      rewrite app_assoc_string, startswith_app in Hp. discriminate. }
  apply startswith_inv in Hp as [rest ->]. rewrite !drop_app. cbn [andb].
  split.
  - intros H. apply andb_prop in H as [Hne Hd].
    unfold ConfigFlow.at_dollar in Hd. apply orb_prop in Hd as [Hd|Hd];
      apply String.eqb_eq in Hd.
    + left. apply after_hex_run_empty in Hd as Hall.
      destruct (hex_run_all _ Hall) as [Hrun _]. rewrite Hrun in Hne.
      now rewrite Hne, Hall.
    + right. apply hex_run_before_line_feed in Hd as (digits & -> & Hall & Hrun).
      exists (ConfigFlow.MODULE_PREFIX +:+ digits).
      rewrite app_assoc_string. split; [reflexivity|].
      rewrite startswith_app, drop_app, Hall. rewrite Hrun in Hne.
      now rewrite Hne.
  - intros [H|(s0 & Hs & H)].
    + apply andb_prop in H as [Hne Hall].
      destruct (hex_run_all _ Hall) as [-> ->]. now rewrite Hne.
    + apply andb_prop in H as [Hp H]. apply startswith_inv in Hp as [digits ->].
      rewrite drop_app in H. apply andb_prop in H as [Hne Hall].
      rewrite app_assoc_string in Hs. apply (inj (String.append _)) in Hs as ->.
      assert (Hrun : ConfigFlow.hex_run (digits +:+ String "010" "") = digits
                     ∧ ConfigFlow.after_hex_run (digits +:+ String "010" "")
                       = String "010" "").
      { clear Hne. induction digits as [|c digits IH]; [now split|].
        cbn in Hall |- *. destruct (ConfigFlow.is_hex c); [|discriminate].
        destruct (IH Hall) as [-> ->]. now split. }
      destruct Hrun as [-> ->]. now rewrite Hne.
Qed.

(** The step answers a rejected entry with the form and the validation
    error, takes every entry the specification's pattern takes, and takes
    nothing else but such an entry followed by a line feed. *)
Lemma manual_entry_validation (configured : gset string)
    (flow_path entered : string) :
  let trimmed := Py.rstrip_slash (Py.strip entered) in
  (ConfigFlow.accepts_entry entered = false →
   ConfigFlow.async_step_manual_entry configured flow_path (Some entered)
   = (flow_path, ConfigFlow.ShowForm "manual_entry" [("base", "invalid_path")]))
  ∧ (ConfigFlow.accepts_entry entered = true →
     ConfigFlow.async_step_manual_entry configured flow_path (Some entered)
     = if bool_decide (trimmed ∈ configured)
       then (flow_path, ConfigFlow.Abort "already_configured")
       else (trimmed, ConfigFlow.ShowForm "output_config" []))
  ∧ (ConfigFlow.module_path_pattern trimmed = true → ConfigFlow.accepts_entry entered = true)
  ∧ (ConfigFlow.accepts_entry entered = true →
     ConfigFlow.module_path_pattern trimmed = true
     ∨ ∃ s0, trimmed = s0 +:+ String "010" "" ∧ ConfigFlow.module_path_pattern s0 = true).
Proof.
  cbn zeta. unfold ConfigFlow.async_step_manual_entry, ConfigFlow.accepts_entry.
  split; [now intros ->|]. split; [now intros ->|]. split.
  - intros H. apply valid_module_path_cases. now left.
  - apply valid_module_path_cases.
Qed.

(** C8. The entry [selfmon/vmod.010aa1], a line feed and a slash: trimming
    leaves the path and the line feed, which the specification's pattern
    does not take; the [$] of the regular expression matches before the
    line feed, so the step takes the entry and goes on to the outputs form
    with a module path that ends in a line feed. *)
Theorem manual_entry_line_feed :
  let entered := "selfmon/vmod.010aa1" +:+ String "010" "/" in
  let trimmed := Py.rstrip_slash (Py.strip entered) in
  trimmed = "selfmon/vmod.010aa1" +:+ String "010" ""
  ∧ ConfigFlow.module_path_pattern trimmed = false
  ∧ ConfigFlow.valid_module_path trimmed = true
  ∧ ConfigFlow.accepts_entry entered = true
  ∧ ConfigFlow.async_step_manual_entry ∅ "" (Some entered)
    = (trimmed, ConfigFlow.ShowForm "output_config" []).
Proof. vm_compute. repeat split. Qed.

Example manual_entry_examples :
  ConfigFlow.accepts_entry "  selfmon/vmod.010aa1// " = true
  ∧ ConfigFlow.accepts_entry "selfmon/vmod.010AA1" = true
  ∧ ConfigFlow.accepts_entry "selfmon/vmod." = false
  ∧ ConfigFlow.accepts_entry "selfmon/vmod.01g" = false
  ∧ ConfigFlow.accepts_entry "xselfmon/vmod.01" = false
  ∧ ConfigFlow.accepts_entry "selfmon/vmod.01 /" = false.
Proof. vm_compute. repeat split. Qed.

(** ** Subscriptions of the discovery sessions *)

Local Open Scope nat_scope.

Section Sessions.

Variable fails : string → bool.

Lemma subscribe_loop_spec (patterns : list string) (b b1 : Mqtt.broker)
    (acc hs : list nat) :
  Session.subscribe_loop fails patterns b acc = (b1, hs) →
  ∃ new, hs = acc ++ new
    ∧ Mqtt.next_handle b ≤ Mqtt.next_handle b1
    ∧ (∀ k, k ∈ new → Mqtt.next_handle b ≤ k < Mqtt.next_handle b1)
    ∧ (∀ k, k ∈ new → is_Some (Mqtt.subscriptions b1 !! k))
    ∧ (∀ k, k ∉ new → Mqtt.subscriptions b1 !! k = Mqtt.subscriptions b !! k).
Proof.
  revert b acc. induction patterns as [|p patterns IH]; intros b acc Hloop.
  - injection Hloop as <- <-. exists []. rewrite app_nil_r.
    split; [reflexivity|]. split; [lia|].
    split; [|split]; intros k Hk; try (now apply elem_of_nil in Hk); reflexivity.
  - cbn [Session.subscribe_loop] in Hloop. destruct (fails p); [eauto|].
    cbn in Hloop. apply IH in Hloop as (new & -> & Hle & Hrange & Hsome & Hkeep).
    cbn [Mqtt.next_handle Mqtt.subscriptions] in *.
    exists (Mqtt.next_handle b :: new). rewrite <- app_assoc.
    split; [reflexivity|]. split; [lia|].
    assert (Hhead : Mqtt.next_handle b ∉ new) by (intros Hin%Hrange; lia).
    split; [|split].
    + intros k [->|Hk%Hrange]%elem_of_cons; lia.
    + intros k [->|Hk]%elem_of_cons; [|auto].
      rewrite (Hkeep _ Hhead), lookup_insert_eq. eauto.
    + intros k Hk. apply not_elem_of_cons in Hk as [Hne Hk].
      now rewrite (Hkeep _ Hk), lookup_insert_ne.
Qed.

Lemma unsubscribe_loop_lookup (hs : list nat) (b : Mqtt.broker) (k : nat) :
  Mqtt.subscriptions (Session.unsubscribe_loop hs b) !! k
  = if decide (k ∈ hs) then None else Mqtt.subscriptions b !! k.
Proof.
  revert b. induction hs as [|h hs IH]; intros b.
  - cbn. case_decide as H; [now apply elem_of_nil in H|reflexivity].
  - cbn [Session.unsubscribe_loop]. rewrite IH. cbn [Mqtt.unsubscribe Mqtt.subscriptions].
    destruct (decide (k = h)) as [->|Hne].
    + rewrite lookup_delete_eq.
      destruct (decide (h ∈ hs)), (decide (h ∈ h :: hs)) as [|Hout];
        try reflexivity.
      all: try (exfalso; apply Hout, elem_of_cons; now left).
    + rewrite lookup_delete_ne by congruence.
      destruct (decide (k ∈ hs)) as [Hin|Hout],
               (decide (k ∈ h :: hs)) as [Hin'|Hout']; try reflexivity.
      * exfalso. apply Hout', elem_of_cons. now right.
      * exfalso. apply elem_of_cons in Hin' as [?|?]; contradiction.
Qed.

Lemma timed_session_expiry {St : Type} (patterns : list string)
    (callback : St → string → St) (init : St) (b : Mqtt.broker)
    (messages : list string) :
  Mqtt.fresh b →
  ∃ b' st, Session.timed_session fails patterns callback init b messages
             Session.TimerElapsed = (Session.Returned, b', st)
           ∧ Mqtt.subscriptions b' = Mqtt.subscriptions b
           ∧ ∀ h, h ∈ Session.created fails patterns b → Mqtt.subscriptions b' !! h = None.
Proof.
  intros Hfresh. unfold Session.timed_session, Session.created.
  destruct (Session.subscribe_loop fails patterns b []) as [b1 hs] eqn:Hloop.
  apply subscribe_loop_spec in Hloop as (new & -> & _ & Hrange & _ & Hkeep).
  cbn [app snd]. eexists _, _. split; [reflexivity|]. split.
  - apply map_eq. intros k. rewrite unsubscribe_loop_lookup.
    case_decide as Hk; [|auto].
    symmetry. apply Hfresh. apply Hrange in Hk. lia.
  - intros h Hh. rewrite unsubscribe_loop_lookup. now rewrite decide_True.
Qed.

Lemma timed_session_cancelled {St : Type} (patterns : list string)
    (callback : St → string → St) (init : St) (b : Mqtt.broker)
    (messages : list string) :
  ∃ b' st, Session.timed_session fails patterns callback init b messages
             Session.TaskCancelled = (Session.RaisedCancelledError, b', st)
           ∧ ∀ h, h ∈ Session.created fails patterns b → is_Some (Mqtt.subscriptions b' !! h).
Proof.
  unfold Session.timed_session, Session.created.
  destruct (Session.subscribe_loop fails patterns b []) as [b1 hs] eqn:Hloop.
  apply subscribe_loop_spec in Hloop as (new & -> & _ & _ & Hsome & _).
  cbn [app snd]. eexists _, _. split; [reflexivity|]. exact Hsome.
Qed.

End Sessions.

(** C2, as the code has it.  When the window of a discovery session
    elapses, the step returns with every subscription it created
    unsubscribed: the active subscriptions are those from before the
    session.  When the task is cancelled during the window the step ends
    in [CancelledError] and every subscription it created stays active.
    Both hold for module discovery and for sensor discovery, whatever
    subscriptions failed and whatever messages arrived. *)
Theorem discovery_unsubscribes_on_expiry (fails : string → bool)
    (module_path : string) (enable_outputs : bool) (b : Mqtt.broker)
    (messages : list string) :
  Mqtt.fresh b →
  Session.ends_clean b (Session.created fails ConfigFlow.subscribe_patterns b)
    (Session.async_step_user fails b messages Session.TimerElapsed)
  ∧ Session.ends_clean b
      (Session.created fails (ConfigFlow.topics_to_subscribe module_path enable_outputs) b)
      (Session.async_step_discover fails module_path enable_outputs b messages
         Session.TimerElapsed)
  ∧ Session.ends_cancelled (Session.created fails ConfigFlow.subscribe_patterns b)
      (Session.async_step_user fails b messages Session.TaskCancelled)
  ∧ Session.ends_cancelled
      (Session.created fails (ConfigFlow.topics_to_subscribe module_path enable_outputs) b)
      (Session.async_step_discover fails module_path enable_outputs b messages
         Session.TaskCancelled).
Proof.
  intros Hfresh. unfold Session.async_step_user, Session.async_step_discover.
  split; [|split; [|split]].
  - destruct (timed_session_expiry fails ConfigFlow.subscribe_patterns
                ConfigFlow.module_discovered ∅ b messages Hfresh)
      as (b' & st & -> & Hsubs & Hnone).
    now split.
  - destruct (timed_session_expiry fails
                (ConfigFlow.topics_to_subscribe module_path enable_outputs)
                (ConfigFlow.message_received module_path) ∅ b messages Hfresh)
      as (b' & st & -> & Hsubs & Hnone).
    now split.
  - destruct (timed_session_cancelled fails ConfigFlow.subscribe_patterns
                ConfigFlow.module_discovered ∅ b messages)
      as (b' & st & -> & Hsome).
    now split.
  - destruct (timed_session_cancelled fails
                (ConfigFlow.topics_to_subscribe module_path enable_outputs)
                (ConfigFlow.message_received module_path) ∅ b messages)
      as (b' & st & -> & Hsome).
    now split.
Qed.

Lemma discovery_unsubscribes_on_expiry_witness :
  Mqtt.subscriptions
    (Session.async_step_discover Session.no_failure "selfmon/vmod.010aa1" true
       Mqtt.idle ["selfmon/vmod.010aa1/temperature"] Session.TimerElapsed).1.2
  = ∅.
Proof.
  destruct (discovery_unsubscribes_on_expiry Session.no_failure
              "selfmon/vmod.010aa1" true Mqtt.idle
              ["selfmon/vmod.010aa1/temperature"])
    as (_ & (_ & Hsubs & _) & _); [intros h _; reflexivity|exact Hsubs].
Defined.

(** C2 as stated fails: a sensor-discovery session cancelled during its
    window leaves its six subscriptions active. *)
Lemma cancelled_discovery_keeps_subscriptions :
  let r := Session.async_step_discover Session.no_failure "selfmon/vmod.010aa1"
             false Mqtt.idle [] Session.TaskCancelled in
  r.1.1 = Session.RaisedCancelledError
  ∧ size (Mqtt.subscriptions r.1.2) = 6%nat
  ∧ Mqtt.subscriptions r.1.2 !! 0%nat = Some "selfmon/vmod.010aa1/prio/inputs/read/#".
Proof. vm_compute. repeat split. Qed.

(** ** The classifier is what a session stores *)

Section Link.

Variable fails : string → bool.

(** The handles a subscribe loop adds stand, in order, for the patterns
    whose subscription succeeded. *)
Lemma subscribe_loop_patterns (patterns : list string) (b b1 : Mqtt.broker)
    (acc hs : list nat) :
  Session.subscribe_loop fails patterns b acc = (b1, hs) →
  ∃ new, hs = acc ++ new
    ∧ Forall2 (λ h pattern, Mqtt.subscriptions b1 !! h = Some pattern)
        new (Session.subscribed fails patterns).
Proof.
  revert b acc. induction patterns as [|p patterns IH]; intros b acc Hloop.
  - injection Hloop as <- <-. exists []. now rewrite app_nil_r.
  - cbn [Session.subscribe_loop] in Hloop. unfold Session.subscribed.
    cbn [List.filter]. destruct (fails p); cbn [negb]; [eauto|].
    cbn in Hloop.
    destruct (subscribe_loop_spec fails _ _ _ _ _ Hloop)
      as (new' & Hhs & _ & Hrange & _ & Hkeep).
    apply IH in Hloop as (new & -> & Hall).
    apply app_inv_head in Hhs as <-.
    exists (Mqtt.next_handle b :: new). rewrite <- app_assoc.
    split; [reflexivity|]. constructor; [|exact Hall].
    rewrite Hkeep; [apply lookup_insert_eq|].
    intros Hin%Hrange. cbn in Hin. lia.
Qed.

Lemma receivers_none (b : Mqtt.broker) (hs : list nat) (ps : list string)
    (msg_topic : string) :
  Forall2 (λ h pattern, Mqtt.subscriptions b !! h = Some pattern) hs ps →
  List.existsb (λ pattern, Mqtt.topic_matches pattern msg_topic) ps
  = negb (bool_decide (Mqtt.receivers b hs msg_topic = [])).
Proof.
  unfold Mqtt.receivers. induction 1 as [|h p hs ps Hh Hall IH]; [reflexivity|].
  cbn [List.existsb List.filter]. rewrite Hh.
  destruct (Mqtt.topic_matches p msg_topic); [reflexivity|exact IH].
Qed.

(** Running the discovery callback once or several times on a message
    stores the same. *)
Lemma message_received_repeated (module_path msg_topic : string)
    (sensors : gmap string descriptor) (hs : list nat) :
  hs ≠ [] →
  List.fold_left (λ st _, ConfigFlow.message_received module_path st msg_topic)
    hs sensors
  = ConfigFlow.message_received module_path sensors msg_topic.
Proof.
  assert (Hidem : ∀ m, ConfigFlow.message_received module_path
                         (ConfigFlow.message_received module_path m msg_topic)
                         msg_topic
                       = ConfigFlow.message_received module_path m msg_topic).
  { intros m. unfold ConfigFlow.message_received.
    destruct (ConfigFlow.discovered module_path msg_topic); [|reflexivity].
    apply insert_insert_eq. }
  intros Hhs. destruct hs as [|h hs]; [contradiction|]. clear Hhs.
  cbn [List.fold_left]. induction hs as [|h' hs IH]; [reflexivity|].
  cbn [List.fold_left]. now rewrite Hidem.
Qed.

(** What a sensor-discovery session holds at its end: for each message in
    turn, the descriptor the classifier gives its topic. *)
Lemma discover_stores_classified (module_path : string) (enable_outputs : bool)
    (b : Mqtt.broker) (messages : list string) (w : Session.wake) :
  (Session.async_step_discover fails module_path enable_outputs b messages w).2
  = List.fold_left
      (λ sensors msg_topic,
         match Session.classify fails module_path msg_topic enable_outputs with
         | Some d => <[msg_topic := d]> sensors
         | None => sensors
         end)
      messages ∅.
Proof.
  unfold Session.async_step_discover, Session.timed_session.
  destruct (Session.subscribe_loop _ _ _ _) as [b1 hs] eqn:Hloop.
  apply subscribe_loop_patterns in Hloop as (new & -> & Hall). cbn [app].
  assert (Hstep : ∀ sensors msg_topic,
            Session.on_message (ConfigFlow.message_received module_path)
              b1 new sensors msg_topic
            = match Session.classify fails module_path msg_topic enable_outputs with
              | Some d => <[msg_topic := d]> sensors
              | None => sensors
              end).
  { intros sensors msg_topic. unfold Session.on_message, Session.classify.
    rewrite (receivers_none _ _ _ msg_topic Hall).
    case_bool_decide as Hnil; cbn [negb].
    - now rewrite Hnil.
    - now rewrite message_received_repeated. }
  assert (Hfold : List.fold_left
            (Session.on_message (ConfigFlow.message_received module_path) b1 new)
            messages ∅
          = List.fold_left
              (λ sensors msg_topic,
                 match Session.classify fails module_path msg_topic enable_outputs with
                 | Some d => <[msg_topic := d]> sensors
                 | None => sensors
                 end) messages ∅).
  { generalize (∅ : gmap string descriptor).
    induction messages as [|m messages IH]; intros st; [reflexivity|].
    cbn [List.fold_left]. now rewrite Hstep, IH. }
  destruct w; cbn [snd]; exact Hfold.
Qed.

End Link.

Lemma split_module_digits (rest : string) :
  ConfigFlow.at_dollar (ConfigFlow.after_hex_run rest) = true →
  Py.split "/" rest = [rest].
Proof.
  induction rest as [|c rest IH]; [reflexivity|]. cbn [ConfigFlow.after_hex_run].
  destruct (ConfigFlow.is_hex c) eqn:Hc.
  - intros H. cbn [Py.split]. rewrite (IH H).
    replace (Ascii.eqb c "/") with false; [reflexivity|].
    revert Hc. clear.
    destruct c as [[] [] [] [] [] [] [] []]; try discriminate; reflexivity.
  - unfold ConfigFlow.at_dollar. intros [H|H]%orb_prop; apply String.eqb_eq in H;
      [discriminate|]. now injection H as -> ->.
Qed.

(** The module paths the flow takes have no wildcard level. *)
Lemma module_path_literal (module_path : string) :
  ConfigFlow.valid_module_path module_path = true →
  Mqtt.literal module_path = true.
Proof.
  unfold ConfigFlow.valid_module_path. intros [Hp H]%andb_prop.
  apply startswith_inv in Hp as [rest ->]. rewrite drop_app in H.
  apply andb_prop in H as [_ H]. unfold Mqtt.literal, ConfigFlow.MODULE_PREFIX.
  change ("selfmon/vmod." +:+ rest) with ("selfmon" +:+ String "/" ("vmod." +:+ rest)).
  rewrite split_sep.
  assert (Hsplit : Py.split "/" ("vmod." +:+ rest) = ["vmod." +:+ rest]).
  { cbn. now rewrite (split_module_digits _ H). }
  rewrite Hsplit. reflexivity.
Qed.

(** So do the module paths that module discovery finds. *)
Lemma module_match_valid (msg_topic module_path : string) :
  ConfigFlow.module_match msg_topic = Some module_path →
  ConfigFlow.valid_module_path module_path = true.
Proof.
  unfold ConfigFlow.module_match.
  destruct (Py.startswith ConfigFlow.MODULE_PREFIX msg_topic); [|discriminate].
  destruct (ConfigFlow.hex_run _) as [|c digits] eqn:Hrun; [discriminate|].
  intros H.
  assert (module_path = ConfigFlow.MODULE_PREFIX +:+ String c digits) as ->
    by congruence.
  clear H. unfold ConfigFlow.valid_module_path.
  rewrite startswith_app, drop_app. cbn [andb].
  assert (Hall : ConfigFlow.all_hex (String c digits) = true).
  { rewrite <- Hrun. generalize (Py.drop (String.length ConfigFlow.MODULE_PREFIX) msg_topic).
    intros s. induction s as [|a s IH]; [reflexivity|]. cbn.
    destruct (ConfigFlow.is_hex a) eqn:Ha; [|reflexivity]. cbn. now rewrite Ha. }
  destruct (hex_run_all _ Hall) as [-> ->]. reflexivity.
Qed.

(** * More of the flow, the platforms and the integration *)

(** ** Module discovery *)

Lemma hex_run_split (s : string) :
  s = ConfigFlow.hex_run s +:+ ConfigFlow.after_hex_run s
  ∧ ConfigFlow.all_hex (ConfigFlow.hex_run s) = true
  ∧ ConfigFlow.hex_run (ConfigFlow.after_hex_run s) = "".
Proof.
  induction s as [|c s (IH1 & IH2 & IH3)]; [now repeat split|].
  cbn [ConfigFlow.hex_run ConfigFlow.after_hex_run].
  destruct (ConfigFlow.is_hex c) eqn:Hc.
  - cbn. rewrite Hc, IH2. now rewrite <- IH1.
  - cbn. now rewrite Hc.
Qed.

Lemma hex_run_app (digits rest : string) :
  ConfigFlow.all_hex digits = true → ConfigFlow.hex_run rest = "" →
  ConfigFlow.hex_run (digits +:+ rest) = digits.
Proof.
  intros Hall Hrest. induction digits as [|c digits IH]; [exact Hrest|].
  cbn in Hall |- *. apply andb_prop in Hall as [-> Hall]. now rewrite IH.
Qed.

Lemma module_match_iff (msg_topic module_path : string) :
  ConfigFlow.module_match msg_topic = Some module_path ↔
  ∃ rest, msg_topic = module_path +:+ rest
          ∧ ConfigFlow.module_path_pattern module_path = true
          ∧ ConfigFlow.hex_run rest = "".
Proof.
  unfold ConfigFlow.module_match, ConfigFlow.module_path_pattern. split.
  - destruct (Py.startswith ConfigFlow.MODULE_PREFIX msg_topic) eqn:Hp;
      [|discriminate].
    apply startswith_inv in Hp as [x ->]. rewrite drop_app.
    destruct (hex_run_split x) as (Hx & Hall & Hrest).
    destruct (ConfigFlow.hex_run x) as [|c digits] eqn:Hrun; [discriminate|].
    intros H.
    assert (module_path = ConfigFlow.MODULE_PREFIX +:+ String c digits) as ->
      by congruence.
    exists (ConfigFlow.after_hex_run x).
    rewrite startswith_app, drop_app, Hall. repeat split; [|exact Hrest].
    now rewrite app_assoc_string, <- Hx.
  - intros (rest & -> & Hm & Hrest). apply andb_prop in Hm as [Hp Hm].
    apply startswith_inv in Hp as [digits ->]. rewrite drop_app in Hm.
    apply andb_prop in Hm as [Hne Hall].
    rewrite app_assoc_string, startswith_app, drop_app.
    rewrite (hex_run_app _ _ Hall Hrest).
    destruct digits; [discriminate|reflexivity].
Qed.

(** The module path that module discovery reads off a topic is the
    longest start of the topic that the specification's pattern takes:
    [module_match] gives [m] exactly for the topics [m ++ rest] where [m]
    fits the pattern and [rest] does not go on with a hexadecimal digit. *)
Theorem module_match_longest_path (msg_topic module_path : string) :
  ConfigFlow.module_match msg_topic = Some module_path ↔
  ∃ rest, msg_topic = module_path +:+ rest
          ∧ ConfigFlow.module_path_pattern module_path = true
          ∧ ConfigFlow.hex_run rest = "".
Proof. apply module_match_iff. Qed.

Section SessionState.

Variable fails : string → bool.

(** With a callback that stores the same when it runs again on the same
    message, the state after the window is the callback run once on each
    message that a subscription of the session matches. *)
Lemma timed_session_state {St : Type} (patterns : list string)
    (callback : St → string → St) (init : St) (b : Mqtt.broker)
    (messages : list string) (w : Session.wake) :
  (∀ st t, callback (callback st t) t = callback st t) →
  (Session.timed_session fails patterns callback init b messages w).2
  = List.fold_left
      (λ st t,
         if List.existsb (λ pattern, Mqtt.topic_matches pattern t)
              (Session.subscribed fails patterns)
         then callback st t else st)
      messages init.
Proof.
  intros Hidem. unfold Session.timed_session.
  destruct (Session.subscribe_loop _ _ _ _) as [b1 hs] eqn:Hloop.
  apply subscribe_loop_patterns in Hloop as (new & -> & Hall). cbn [app].
  assert (Hfold : ∀ st,
            List.fold_left (Session.on_message callback b1 new) messages st
            = List.fold_left
                (λ st t,
                   if List.existsb (λ pattern, Mqtt.topic_matches pattern t)
                        (Session.subscribed fails patterns)
                   then callback st t else st) messages st).
  { induction messages as [|m messages IH]; intros st; [reflexivity|].
    cbn [List.fold_left]. rewrite <- IH. f_equal.
    unfold Session.on_message. rewrite (receivers_none _ _ _ m Hall).
    case_bool_decide as Hnil; cbn [negb]; [now rewrite Hnil|].
    destruct (Mqtt.receivers b1 new m) as [|h hs]; [contradiction|].
    cbn [List.fold_left]. clear Hnil.
    induction hs as [|h' hs IHh]; [reflexivity|].
    cbn [List.fold_left]. now rewrite Hidem. }
  destruct w; cbn [snd]; apply Hfold.
Qed.

End SessionState.

Lemma catch_all_matches (msg_topic : string) :
  Py.startswith "selfmon/" msg_topic = true →
  Mqtt.topic_matches "selfmon/#" msg_topic = true.
Proof.
  intros [r ->]%startswith_inv. unfold Mqtt.topic_matches.
  change ("selfmon/" +:+ r) with ("selfmon" +:+ String "/" r).
  rewrite split_sep. reflexivity.
Qed.

Lemma modules_fold (fails : string → bool) (messages : list string)
    (st : gset string) (module_path : string) :
  module_path ∈ List.fold_left
    (λ st t,
       if List.existsb (λ pattern, Mqtt.topic_matches pattern t)
            (Session.subscribed fails ConfigFlow.subscribe_patterns)
       then ConfigFlow.module_discovered st t else st) messages st
  ↔ module_path ∈ st
    ∨ ∃ t, t ∈ messages
           ∧ List.existsb (λ pattern, Mqtt.topic_matches pattern t)
               (Session.subscribed fails ConfigFlow.subscribe_patterns) = true
           ∧ ConfigFlow.module_match t = Some module_path.
Proof.
  revert st. induction messages as [|m messages IH]; intros st.
  - cbn. split; [now left|]. intros [H|(t & Ht & _)]; [exact H|].
    now apply elem_of_nil in Ht.
  - cbn [List.fold_left]. rewrite IH. clear IH.
    destruct (List.existsb _ (Session.subscribed _ _)) eqn:Hdel.
    + unfold ConfigFlow.module_discovered.
      destruct (ConfigFlow.module_match m) as [m'|] eqn:Hm.
      * rewrite elem_of_union, elem_of_singleton. split.
        -- intros [[->|H]|(t & Ht & Hd & Hmt)]; [|now left|].
           ++ right. exists m. split; [left|]. now split.
           ++ right. exists t. split; [now right|]. now split.
        -- intros [H|(t & Ht & Hd & Hmt)]; [left; now right|].
           apply elem_of_cons in Ht as [->|Ht].
           ++ left. left. congruence.
           ++ right. exists t. now repeat split.
      * split.
        -- intros [H|(t & Ht & Hd & Hmt)]; [now left|].
           right. exists t. split; [now right|]. now split.
        -- intros [H|(t & Ht & Hd & Hmt)]; [now left|].
           apply elem_of_cons in Ht as [->|Ht]; [congruence|].
           right. exists t. now repeat split.
    + split.
      * intros [H|(t & Ht & Hd & Hmt)]; [now left|].
        right. exists t. split; [now right|]. now split.
      * intros [H|(t & Ht & Hd & Hmt)]; [now left|].
        apply elem_of_cons in Ht as [->|Ht]; [congruence|].
        right. exists t. now repeat split.
Qed.

(** The modules of a module-discovery session: the module paths of the
    received topics that a subscription of the session matches. *)
Lemma user_modules (fails : string → bool) (b : Mqtt.broker)
    (messages : list string) (w : Session.wake) (module_path : string) :
  module_path ∈ (Session.async_step_user fails b messages w).2
  ↔ ∃ t, t ∈ messages
         ∧ List.existsb (λ pattern, Mqtt.topic_matches pattern t)
             (Session.subscribed fails ConfigFlow.subscribe_patterns) = true
         ∧ ConfigFlow.module_match t = Some module_path.
Proof.
  unfold Session.async_step_user. rewrite (timed_session_state fails).
  2:{ intros st t. unfold ConfigFlow.module_discovered.
      destruct (ConfigFlow.module_match t); [|reflexivity].
      apply set_eq. intros x. rewrite !elem_of_union. tauto. }
  split.
  - intros [Hin|H]%modules_fold; [|exact H]. now apply not_elem_of_empty in Hin.
  - intros H. apply modules_fold. now right.
Qed.

Lemma module_topic_delivered (fails : string → bool) (t module_path : string) :
  fails "selfmon/#" = false →
  ConfigFlow.module_match t = Some module_path →
  List.existsb (λ pattern, Mqtt.topic_matches pattern t)
    (Session.subscribed fails ConfigFlow.subscribe_patterns) = true.
Proof.
  intros Hcatch Hm.
  rewrite existsb_subscribed. apply existsb_exists. exists "selfmon/#".
  split; [cbn; tauto|]. rewrite Hcatch. cbn [negb andb].
  apply catch_all_matches.
  apply module_match_iff in Hm as (rest & -> & Hp & _).
  apply andb_prop in Hp as [Hp _]. apply startswith_inv in Hp as [x ->].
  reflexivity.
Qed.

(** Module discovery finds module paths of received topics only, each of
    them one the manual entry would take, and, with the catch-all
    subscription [selfmon/#] in place, the module path of every received
    topic that has one. *)
Theorem discovered_modules_are_received (fails : string → bool)
    (b : Mqtt.broker) (messages : list string) (w : Session.wake)
    (module_path : string) :
  let modules := (Session.async_step_user fails b messages w).2 in
  (module_path ∈ modules →
   ConfigFlow.valid_module_path module_path = true
   ∧ ∃ t, t ∈ messages ∧ ConfigFlow.module_match t = Some module_path)
  ∧ (if fails "selfmon/#" then True
     else (∃ t, t ∈ messages ∧ ConfigFlow.module_match t = Some module_path) →
          module_path ∈ modules).
Proof.
  cbn zeta. split.
  - intros (t & Ht & _ & Hm)%user_modules.
    split; [eauto using module_match_valid|eauto].
  - destruct (fails "selfmon/#") eqn:Hcatch; [exact I|].
    intros (t & Ht & Hm). apply user_modules. exists t.
    eauto using module_topic_delivered.
Qed.

(** The first step of the flow.  Without an MQTT client it aborts before
    subscribing.  Otherwise, when the window elapsed: if no received topic
    has a module path, it shows the manual entry with [no_modules_found];
    if, with the catch-all subscription in place, the received topics
    have one module path between them, the flow takes it and goes on to the
    outputs form, or aborts when that module is configured already; if
    they have two different ones, it shows the selection, whose options
    are the discovered modules, each once, in ascending order. *)
Theorem user_step_outcomes (fails : string → bool) (configured : gset string)
    (f : Flow.flow) (b : Mqtt.broker) (messages : list string)
    (m1 m2 : string) :
  fails "selfmon/#" = false →
  Flow.async_step_user fails configured false f b messages Session.TimerElapsed
  = (f, b, Flow.Abort "mqtt_not_available")
  ∧ ((∀ t, t ∈ messages → ConfigFlow.module_match t = None) →
     (Flow.async_step_user fails configured true f b messages
        Session.TimerElapsed).2
     = Flow.ShowForm "manual_entry" [("base", "no_modules_found")])
  ∧ ((∃ t, t ∈ messages ∧ ConfigFlow.module_match t = Some m1) →
     (∀ t m, t ∈ messages → ConfigFlow.module_match t = Some m → m = m1) →
     let '(f', _, r) :=
       Flow.async_step_user fails configured true f b messages
         Session.TimerElapsed in
     Flow._module_path f' = m1
     ∧ r = if bool_decide (m1 ∈ configured) then Flow.Abort "already_configured"
           else Flow.ShowForm "output_config" [])
  ∧ ((∃ t, t ∈ messages ∧ ConfigFlow.module_match t = Some m1) →
     (∃ t, t ∈ messages ∧ ConfigFlow.module_match t = Some m2) →
     m1 ≠ m2 →
     ∃ options,
       (Flow.async_step_user fails configured true f b messages
          Session.TimerElapsed).2
       = Flow.ShowSelect "select_module" options
       ∧ Sorted String.le options ∧ NoDup options
       ∧ ∀ m, m ∈ options
              ↔ ∃ t, t ∈ messages ∧ ConfigFlow.module_match t = Some m).
Proof.
  intros Hcatch. split; [reflexivity|].
  assert (Hmodules : ∀ m,
            m ∈ (Session.async_step_user fails b messages Session.TimerElapsed).2
            ↔ ∃ t, t ∈ messages ∧ ConfigFlow.module_match t = Some m).
  { intros m. rewrite user_modules. split.
    - intros (t & Ht & _ & Hm). eauto.
    - intros (t & Ht & Hm). exists t. eauto using module_topic_delivered. }
  unfold Flow.async_step_user. cbn [negb].
  destruct (Session.async_step_user fails b messages Session.TimerElapsed)
    as [[exit b'] modules] eqn:Hsession.
  assert (exit = Session.Returned) as ->.
  { unfold Session.async_step_user, Session.timed_session in Hsession.
    destruct (Session.subscribe_loop _ _ _ _). now injection Hsession as <- _ _. }
  cbn [snd] in Hmodules.
  split; [|split].
  - intros Hnone.
    assert (modules = ∅) as ->.
    { apply set_eq. intros m. rewrite Hmodules. split.
      - intros (t & Ht & Hm). rewrite (Hnone _ Ht) in Hm. discriminate.
      - intros H. now apply not_elem_of_empty in H. }
    now rewrite elements_empty.
  - intros Hsome Hone.
    assert (modules = {[ m1 ]}) as ->.
    { apply set_eq. intros m. rewrite Hmodules, elem_of_singleton. split.
      - intros (t & Ht & Hm). eauto.
      - now intros ->. }
    rewrite elements_singleton. cbn. now split.
  - intros H1 H2 Hne.
    destruct (elements modules) as [|a [|a' l]] eqn:Hel.
    + apply elements_empty_inv, leibniz_equiv in Hel. subst modules.
      apply Hmodules in H1. now apply not_elem_of_empty in H1.
    + apply Hmodules, elem_of_elements in H1. apply Hmodules, elem_of_elements in H2.
      rewrite Hel in H1, H2.
      apply list_elem_of_singleton in H1, H2. congruence.
    + cbn. eexists. split; [reflexivity|].
      unfold Flow.sorted. split; [apply Sorted_merge_sort; apply _|].
      split.
      * rewrite merge_sort_Permutation. apply NoDup_elements.
      * intros m. rewrite merge_sort_Permutation, elem_of_elements. apply Hmodules.
Qed.

Lemma user_step_outcomes_witness :
  (Flow.async_step_user Session.no_failure {[ "selfmon/vmod.0b" ]} true Flow.init
     Mqtt.idle
     ["selfmon/vmod.010aa1/temperature"; "selfmon/vmod.010aa1/prio/inputs/read/3"]
     Session.TimerElapsed).2
  = Flow.ShowForm "output_config" [].
Proof.
  destruct (user_step_outcomes Session.no_failure {[ "selfmon/vmod.0b" ]}
              Flow.init Mqtt.idle
              ["selfmon/vmod.010aa1/temperature";
               "selfmon/vmod.010aa1/prio/inputs/read/3"]
              "selfmon/vmod.010aa1" "" eq_refl) as (_ & _ & Hone & _).
  destruct (Flow.async_step_user _ _ _ _ _ _ _) as [[f' b'] r].
  apply Hone.
  - exists "selfmon/vmod.010aa1/temperature". split; [left|reflexivity].
  - intros t m Ht Hm.
    repeat (apply elem_of_cons in Ht as [->|Ht];
            [vm_compute in Hm; congruence|]).
    now apply elem_of_nil in Ht.
Defined.

(** ** What sensor discovery stores *)

(** The callback's descriptors, branch by branch. *)
Lemma discovered_shape (base msg_topic : string) (d : descriptor) :
  ConfigFlow.discovered base msg_topic = Some d →
  topic d = msg_topic
  ∧ name d = get_default_sensor_name (sensor_type d) (zone_id d)
  ∧ (sensor_type d = SENSOR_TYPE_ZONE_INPUT
       ∧ auto_enabled d = false ∧ is_Some (is_prio d)
       ∧ device_class d = get_default_device_class (zone_id d) msg_topic
     ∨ sensor_type d = SENSOR_TYPE_OUTPUT
       ∧ auto_enabled d = false ∧ is_Some (is_prio d) ∧ device_class d = "None"
     ∨ sensor_type d = SENSOR_TYPE_TEMPERATURE ∧ zone_id d = "temperature"
       ∧ auto_enabled d = true ∧ is_prio d = None ∧ device_class d = "temperature"
     ∨ sensor_type d = SENSOR_TYPE_VKP_LINE
       ∧ (zone_id d = "line1" ∨ zone_id d = "line2")
       ∧ auto_enabled d = true ∧ is_prio d = None ∧ device_class d = "None"
     ∨ sensor_type d = SENSOR_TYPE_VERSION ∧ zone_id d = "version"
       ∧ auto_enabled d = true ∧ is_prio d = None ∧ device_class d = "None").
Proof.
  unfold ConfigFlow.discovered. intros H.
  repeat match type of H with
         | (if ?c then _ else _) = _ => destruct c eqn:?
         end; try discriminate; injection H as <-; cbn;
    (split; [reflexivity|]); (split; [try reflexivity|]).
  all: try (destruct (Py.contains "line1" _); reflexivity).
  all: eauto 12.
  all: destruct (Py.contains "line1" _); eauto 12.
Qed.

(** Every descriptor that the discovery callback builds carries the topic
    it was built for, the default name of its kind and zone id, and the
    flags of its kind: zone inputs and outputs are not auto-enabled and
    have [is_prio], the three others are auto-enabled, have no [is_prio]
    and a fixed zone id. *)
Theorem discovered_descriptor_shape (base msg_topic : string) (d : descriptor) :
  ConfigFlow.discovered base msg_topic = Some d →
  topic d = msg_topic
  ∧ name d = get_default_sensor_name (sensor_type d) (zone_id d)
  ∧ (sensor_type d = SENSOR_TYPE_ZONE_INPUT
       ∧ auto_enabled d = false ∧ is_Some (is_prio d)
       ∧ device_class d = get_default_device_class (zone_id d) msg_topic
     ∨ sensor_type d = SENSOR_TYPE_OUTPUT
       ∧ auto_enabled d = false ∧ is_Some (is_prio d) ∧ device_class d = "None"
     ∨ sensor_type d = SENSOR_TYPE_TEMPERATURE ∧ zone_id d = "temperature"
       ∧ auto_enabled d = true ∧ is_prio d = None ∧ device_class d = "temperature"
     ∨ sensor_type d = SENSOR_TYPE_VKP_LINE
       ∧ (zone_id d = "line1" ∨ zone_id d = "line2")
       ∧ auto_enabled d = true ∧ is_prio d = None ∧ device_class d = "None"
     ∨ sensor_type d = SENSOR_TYPE_VERSION ∧ zone_id d = "version"
       ∧ auto_enabled d = true ∧ is_prio d = None ∧ device_class d = "None").
Proof. apply discovered_shape. Qed.

Lemma discovered_descriptor_shape_witness :
  match ConfigFlow.discovered "selfmon/vmod.010aa1"
          "selfmon/vmod.010aa1/vkp/display/line1" with
  | Some d => topic d = "selfmon/vmod.010aa1/vkp/display/line1"
              ∧ name d = "Keypad Line 1"
  | None => False
  end.
Proof.
  destruct (ConfigFlow.discovered _ _) as [d|] eqn:Hd;
    [|vm_compute in Hd; discriminate].
  destruct (discovered_descriptor_shape _ _ _ Hd) as (Htopic & Hname & _).
  split; [exact Htopic|]. rewrite Hname.
  vm_compute in Hd. now injection Hd as <-.
Defined.

Lemma discover_lookup (fails : string → bool) (base : string) (outputs : bool)
    (b : Mqtt.broker) (messages : list string) (w : Session.wake) (t : string) :
  (Session.async_step_discover fails base outputs b messages w).2 !! t
  = if bool_decide (t ∈ messages) then Session.classify fails base t outputs
    else None.
Proof.
  rewrite discover_stores_classified.
  assert (Hfold : ∀ acc : gmap string descriptor,
    List.fold_left
      (λ sensors msg_topic,
         match Session.classify fails base msg_topic outputs with
         | Some d => <[msg_topic := d]> sensors
         | None => sensors
         end) messages acc !! t
    = if bool_decide (t ∈ messages)
      then match Session.classify fails base t outputs with
           | Some d => Some d
           | None => acc !! t
           end
      else acc !! t).
  { induction messages as [|m messages IH]; intros acc; [reflexivity|].
    cbn [List.fold_left]. rewrite IH. clear IH.
    destruct (decide (t = m)) as [->|Hne].
    - rewrite (bool_decide_eq_true_2 (m ∈ m :: messages)) by left.
      destruct (Session.classify fails base m outputs) as [d|] eqn:Hc.
      + rewrite lookup_insert_eq. now case_bool_decide.
      + now case_bool_decide.
    - assert (Hacc : match Session.classify fails base m outputs with
                     | Some d => <[m := d]> acc
                     | None => acc
                     end !! t = acc !! t).
      { destruct (Session.classify fails base m outputs);
          [now apply lookup_insert_ne|reflexivity]. }
      rewrite Hacc.
      destruct (bool_decide (t ∈ messages)) eqn:Hin.
      + apply bool_decide_eq_true in Hin.
        rewrite bool_decide_eq_true_2 by now right. reflexivity.
      + apply bool_decide_eq_false in Hin.
        rewrite bool_decide_eq_false_2; [reflexivity|].
        intros [?|?]%elem_of_cons; contradiction. }
  rewrite Hfold, lookup_empty.
  case_bool_decide; [|reflexivity].
  now destruct (Session.classify fails base t outputs).
Qed.

(** The store of a sensor-discovery session holds, under each received
    topic, what the classifier gives that topic, and nothing under any
    other topic.  So the order of the messages, their repetition and the
    way the step ended do not show in the store. *)
Theorem discovery_store_lookup (fails : string → bool) (base : string)
    (outputs : bool) (b b' : Mqtt.broker) (messages messages' : list string)
    (w w' : Session.wake) (t : string) :
  (Session.async_step_discover fails base outputs b messages w).2 !! t
  = (if bool_decide (t ∈ messages) then Session.classify fails base t outputs
     else None)
  ∧ ((∀ x, x ∈ messages ↔ x ∈ messages') →
     (Session.async_step_discover fails base outputs b messages w).2
     = (Session.async_step_discover fails base outputs b' messages' w').2).
Proof.
  split; [apply discover_lookup|].
  intros Hsame. apply map_eq. intros k. rewrite !discover_lookup.
  destruct (decide (k ∈ messages)) as [Hin|Hout].
  - rewrite !bool_decide_eq_true_2; [reflexivity| |exact Hin]. now apply Hsame.
  - rewrite !bool_decide_eq_false_2; [reflexivity| |exact Hout].
    intros H. now apply Hout, Hsame.
Qed.

(** Every stored descriptor sits under a received topic and is what the
    callback builds for that topic. *)
Lemma store_topics (fails : string → bool) (base : string) (outputs : bool)
    (b : Mqtt.broker) (messages : list string) (w : Session.wake)
    (k : string) (d : descriptor) :
  (Session.async_step_discover fails base outputs b messages w).2 !! k = Some d →
  k ∈ messages ∧ ConfigFlow.discovered base k = Some d.
Proof.
  rewrite discover_lookup. case_bool_decide as Hin; [|discriminate].
  unfold Session.classify. destruct (List.existsb _ _); [|discriminate].
  now split.
Qed.

(** A subscription that failed takes nothing away from what the others
    deliver, and enabling outputs takes nothing away either: what the
    classifier gives a topic it also gives with fewer failures and with
    outputs enabled. *)
Theorem classify_monotone (fails fails' : string → bool) (base t : string)
    (outputs : bool) (d : descriptor) :
  (∀ pattern, fails' pattern = true → fails pattern = true) →
  Session.classify fails base t outputs = Some d →
  Session.classify fails' base t outputs = Some d
  ∧ Session.classify fails' base t true = Some d.
Proof.
  intros Hless. unfold Session.classify.
  destruct (List.existsb _ _) eqn:Hex; [|discriminate]. intros Hd.
  apply existsb_exists in Hex as (pattern & Hin & Hm).
  unfold Session.subscribed in Hin. apply filter_In in Hin as [Hin Hok].
  assert (Hok' : negb (fails' pattern) = true).
  { destruct (fails' pattern) eqn:Hf; [|reflexivity].
    now rewrite (Hless _ Hf) in Hok. }
  assert (Hsub : ∀ o, In pattern (ConfigFlow.topics_to_subscribe base outputs) →
                 (outputs = true → o = true) →
                 List.existsb (λ p, Mqtt.topic_matches p t)
                   (Session.subscribed fails' (ConfigFlow.topics_to_subscribe base o))
                 = true).
  { intros o Hp Ho. apply existsb_exists. exists pattern. split; [|exact Hm].
    unfold Session.subscribed. apply filter_In. split; [|exact Hok'].
    unfold ConfigFlow.topics_to_subscribe in Hp |- *.
    apply in_app_iff in Hp as [Hp|Hp]; apply in_app_iff; [now left|right].
    destruct outputs; [|contradiction]. now rewrite Ho. }
  split.
  - rewrite (Hsub outputs Hin); [exact Hd|tauto].
  - rewrite (Hsub true Hin); [exact Hd|tauto].
Qed.

Lemma classify_monotone_witness :
  Session.classify Session.no_failure "selfmon/vmod.010aa1"
    "selfmon/vmod.010aa1/version" true
  = Some {| sensor_type := "version"; zone_id := "version";
            name := "Module Version"; device_class := "None"; enabled := true;
            topic := "selfmon/vmod.010aa1/version"; is_prio := None;
            auto_enabled := true |}.
Proof.
  apply (classify_monotone
           (λ pattern, String.eqb pattern "selfmon/vmod.010aa1/temperature")
           Session.no_failure "selfmon/vmod.010aa1"
           "selfmon/vmod.010aa1/version" false); [discriminate|reflexivity].
Defined.

(** ** The sensors asked about, and the wizard *)

Lemma le_by_key_total : Total (λ a b : string * descriptor, String.le a.1 b.1).
Proof. intros a b. apply (total String.le). Qed.

Lemma le_by_key_trans : Transitive (λ a b : string * descriptor, String.le a.1 b.1).
Proof. intros a b c. apply (transitivity (R:=String.le)). Qed.

Lemma sorted_filter_keys (keep : string * descriptor → bool)
    (items : list (string * descriptor)) :
  StronglySorted (λ a b, String.le a.1 b.1) items →
  NoDup items.*1 →
  StronglySorted String.le (List.filter keep items).*1
  ∧ NoDup (List.filter keep items).*1
  ∧ ∀ k, k ∈ (List.filter keep items).*1
         ↔ ∃ d, (k, d) ∈ items ∧ keep (k, d) = true.
Proof.
  induction 1 as [|[k0 d0] items Hsorted IH Hall]; intros Hnodup.
  - cbn. repeat split; [constructor..| |]; intros H.
    + now apply elem_of_nil in H.
    + destruct H as (d & H & _). now apply elem_of_nil in H.
  - cbn in Hnodup. apply NoDup_cons in Hnodup as [Hk0 Hnodup].
    destruct (IH Hnodup) as (IHs & IHn & IHm). clear IH.
    assert (Hlater : ∀ k, k ∈ (List.filter keep items).*1 →
                     String.le k0 k ∧ k ∈ items.*1).
    { intros k (d & Hd & _)%IHm. split.
      - rewrite Forall_forall in Hall. apply (Hall (k, d) Hd).
      - apply list_elem_of_fmap. now exists (k, d). }
    cbn [List.filter]. destruct (keep (k0, d0)) eqn:Hkeep.
    + cbn. split; [|split].
      * constructor; [exact IHs|]. apply Forall_forall. intros k Hk.
        now apply Hlater.
      * apply NoDup_cons. split; [|exact IHn]. intros Hin. apply Hk0.
        now apply Hlater.
      * intros k. rewrite elem_of_cons, IHm. split.
        -- intros [->|(d & Hd & Hp)]; [exists d0; split; [left|exact Hkeep]|].
           exists d. split; [now right|exact Hp].
        -- intros (d & [Heq|Hd]%elem_of_cons & Hp).
           ++ left. congruence.
           ++ right. eauto.
    + split; [exact IHs|]. split; [exact IHn|].
      intros k. rewrite IHm. split.
      * intros (d & Hd & Hp). exists d. split; [now right|exact Hp].
      * intros (d & [Heq|Hd]%elem_of_cons & Hp); [|eauto].
        injection Heq as -> ->. congruence.
Qed.

Lemma keys_to_ask_spec (sensors : gmap string descriptor) :
  StronglySorted String.le (Flow.keys_to_ask sensors)
  ∧ NoDup (Flow.keys_to_ask sensors)
  ∧ ∀ k, k ∈ Flow.keys_to_ask sensors
         ↔ ∃ d, sensors !! k = Some d ∧ auto_enabled d = false.
Proof.
  unfold Flow.keys_to_ask, Flow.sorted_items.
  pose proof le_by_key_total. pose proof le_by_key_trans.
  destruct (sorted_filter_keys (λ item, negb (auto_enabled item.2))
              (merge_sort (λ a b, String.le a.1 b.1) (map_to_list sensors)))
    as (Hs & Hn & Hm).
  - apply StronglySorted_merge_sort; assumption.
  - rewrite merge_sort_Permutation. apply NoDup_fst_map_to_list.
  - split; [exact Hs|]. split; [exact Hn|]. intros k. rewrite Hm.
    split; intros (d & Hd & Hp); exists d.
    + rewrite merge_sort_Permutation in Hd. apply elem_of_map_to_list in Hd.
      split; [exact Hd|]. cbn in Hp. now apply negb_true_iff in Hp.
    + split; [|cbn; now rewrite Hp].
      rewrite merge_sort_Permutation. now apply elem_of_map_to_list.
Qed.

(** The sensors the wizard asks about are the topics whose descriptor is
    not auto-enabled, each once, in ascending order. *)
Theorem keys_to_ask_sorted_distinct (sensors : gmap string descriptor)
    (k : string) :
  StronglySorted String.le (Flow.keys_to_ask sensors)
  ∧ NoDup (Flow.keys_to_ask sensors)
  ∧ (k ∈ Flow.keys_to_ask sensors
     ↔ ∃ d, sensors !! k = Some d ∧ auto_enabled d = false).
Proof.
  destruct (keys_to_ask_spec sensors) as (Hs & Hn & Hm). auto.
Qed.






Lemma keys_to_ask_nil (sensors : gmap string descriptor) :
  Flow.keys_to_ask sensors = [] ↔ map_Forall (λ _ d, auto_enabled d = true) sensors.
Proof.
  destruct (keys_to_ask_spec sensors) as (_ & _ & Hm). split.
  - intros Hnil k d Hd. destruct (auto_enabled d) eqn:Ha; [reflexivity|].
    assert (k ∈ Flow.keys_to_ask sensors) as Hin by (apply Hm; eauto).
    rewrite Hnil in Hin. now apply elem_of_nil in Hin.
  - intros Hall. destruct (Flow.keys_to_ask sensors) as [|k ks] eqn:Hk;
      [reflexivity|].
    assert (k ∈ k :: ks) as Hin by left. apply Hm in Hin as (d & Hd & Ha).
    rewrite (Hall _ _ Hd) in Ha. discriminate.
Qed.

Lemma discover_returns (fails : string → bool) (base : string) (outputs : bool)
    (b : Mqtt.broker) (messages : list string) :
  (Session.async_step_discover fails base outputs b messages
     Session.TimerElapsed).1.1 = Session.Returned.
Proof.
  unfold Session.async_step_discover, Session.timed_session.
  now destruct (Session.subscribe_loop _ _ _ _).
Qed.

(** The discovery step when its window elapsed.  The flow holds the
    session's store; the module path and the outputs choice stay.  When
    the store is empty the step shows the manual entry with
    [no_sensors_found].  When every stored sensor is auto-enabled it
    creates the entry at once, with the store as it is.  Otherwise it shows
    the form of the first of the keys to ask, numbered 1 of their count,
    and leaves the flow ready for the wizard: at index 0, with distinct
    keys that are topics of its sensors. *)
Theorem discover_step_outcomes (fails : string → bool) (f : Flow.flow)
    (b : Mqtt.broker) (messages : list string) :
  let '(f', b', r) :=
    Flow.async_step_discover fails f b messages Session.TimerElapsed in
  let store :=
    (Session.async_step_discover fails (Flow._module_path f)
       (Flow._enable_outputs f) b messages Session.TimerElapsed).2 in
  Flow._discovered_sensors f' = store
  ∧ Flow._module_path f' = Flow._module_path f
  ∧ Flow._enable_outputs f' = Flow._enable_outputs f
  ∧ (store = ∅ →
     r = Flow.ShowForm "manual_entry" [("base", "no_sensors_found")])
  ∧ (store ≠ ∅ → map_Forall (λ _ d, auto_enabled d = true) store →
     r = Flow.CreateEntry "Honeywell Galaxy Alarm" (Flow._module_path f) store
           (Flow._enable_outputs f))
  ∧ (store ≠ ∅ →
     Flow._current_sensor_index f' = 0
     ∧ Flow._sensor_keys f' = Flow.keys_to_ask store
     ∧ NoDup (Flow._sensor_keys f')
     ∧ (∀ k, k ∈ Flow._sensor_keys f' →
             is_Some (Flow._discovered_sensors f' !! k))
     ∧ ∀ key d, Flow._sensor_keys f' !! 0 = Some key → store !! key = Some d →
         ∃ form, r = Flow.ShowSensorForm form
                 ∧ Flow.form_topic form = key
                 ∧ Flow.form_sensor_num form = "1"
                 ∧ Flow.form_total_sensors form
                   = Py.str (N.of_nat (length (Flow.keys_to_ask store)))
                 ∧ Flow.default_enabled form = true
                 ∧ Flow.default_name form
                   = get_default_sensor_name (sensor_type d) (zone_id d)).
Proof.
  unfold Flow.async_step_discover.
  pose proof (discover_returns fails (Flow._module_path f) (Flow._enable_outputs f)
                b messages) as Hexit.
  destruct (Session.async_step_discover _ _ _ _ _ _) as [[exit b'] store] eqn:Hs.
  cbn [fst snd] in Hexit |- *. subst exit.
  assert (Hstore : ∀ k d, store !! k = Some d →
            topic d = k ∧ enabled d = true
            ∧ name d = get_default_sensor_name (sensor_type d) (zone_id d)).
  { intros k d Hd.
    replace store with
      (Session.async_step_discover fails (Flow._module_path f)
         (Flow._enable_outputs f) b messages Session.TimerElapsed).2 in Hd
      by now rewrite Hs.
    apply store_topics in Hd as [_ Hd].
    destruct (discovered_shape _ _ _ Hd) as (Ht & Hn & _).
    eauto using discovered_enabled. }
  destruct (keys_to_ask_spec store) as (_ & Hnodup & Hmem).
  case_bool_decide as Hempty.
  { subst store. cbn. repeat split; try reflexivity; intros; congruence. }
  destruct (Flow.keys_to_ask store) as [|key keys] eqn:Hkeys;
    cbn [Flow._sensor_keys].
  - cbn [Flow._sensor_keys Flow._current_sensor_index Flow._discovered_sensors
         Flow._module_path Flow._enable_outputs fst snd].
    split; [reflexivity|]. split; [reflexivity|]. split; [reflexivity|].
    split; [congruence|]. split; [reflexivity|].
    intros _. split; [reflexivity|]. split; [reflexivity|].
    split; [apply NoDup_nil_2|]. split.
    { intros k Hk. now apply elem_of_nil in Hk. }
    intros key d Hkey. discriminate.
  - assert (Hkey : ∃ d, store !! key = Some d ∧ auto_enabled d = false)
      by (apply Hmem; left).
    destruct Hkey as (d & Hd & Hauto).
    unfold Flow.async_step_sensor_config, Flow.show_sensor.
    cbn [Flow._sensor_keys Flow._current_sensor_index Flow._discovered_sensors
         Flow._module_path Flow._enable_outputs].
    cbn [length Nat.leb lookup list_lookup]. rewrite Hd.
    cbn [Flow._sensor_keys Flow._current_sensor_index Flow._discovered_sensors
         Flow._module_path Flow._enable_outputs fst snd].
    split; [reflexivity|]. split; [reflexivity|]. split; [reflexivity|].
    split; [congruence|]. split.
    { intros _ Hall. rewrite (Hall _ _ Hd) in Hauto. discriminate. }
    intros _. split; [reflexivity|]. split; [reflexivity|].
    split; [exact Hnodup|]. split.
    { intros k (d' & Hd' & _)%Hmem. eauto. }
    intros key' d' [= <-] Hd'. rewrite Hd in Hd'. injection Hd' as <-.
    destruct (Hstore _ _ Hd) as (Ht & He & Hn).
    eexists. split; [reflexivity|]. cbn. auto.
Qed.

(** ** The platforms *)

Lemma known_type_cases (t : string) :
  t ∈ Integration.SENSOR_TYPES →
  t = SENSOR_TYPE_ZONE_INPUT ∨ t = SENSOR_TYPE_OUTPUT
  ∨ t = SENSOR_TYPE_TEMPERATURE ∨ t = SENSOR_TYPE_VKP_LINE
  ∨ t = SENSOR_TYPE_VERSION.
Proof.
  unfold Integration.SENSOR_TYPES. rewrite !elem_of_cons, elem_of_nil. tauto.
Qed.

(** The two platforms share out the sensors: the topics that the entities
    of both listen on are the topics of the enabled sensors, each as often
    as it occurs there.  An enabled sensor of one of the five types gets one
    entity, on one platform; a disabled one gets none. *)
Theorem platforms_share_enabled_sensors (path : string)
    (items : list (string * descriptor)) :
  Forall (λ item, sensor_type item.2 ∈ Integration.SENSOR_TYPES) items →
  (BinarySensor.zone_topic <$> Integration.zone_entities path items)
  ++ (Integration.entity_topic <$> Integration.sensor_entities path items)
  ≡ₚ (λ item, topic item.2) <$> List.filter (λ item, enabled item.2) items.
Proof.
  induction 1 as [|[k d] items Hd Hall IH]; [reflexivity|].
  cbn [Integration.zone_entities Integration.sensor_entities List.filter snd].
  destruct (enabled d); cbn [negb]; [|exact IH].
  apply known_type_cases in Hd. cbn [snd] in Hd.
  destruct Hd as [Ht | [Ht | [Ht | [Ht | Ht]]]]; rewrite Ht; cbn; rewrite <- IH;
    try reflexivity.
  all: now rewrite <- Permutation_middle.
Qed.

Lemma platforms_share_enabled_sensors_witness :
  let zone := {| sensor_type := "zone_input"; zone_id := "7";
                 name := "Front door"; device_class := "door"; enabled := true;
                 topic := "selfmon/vmod.010aa1/prio/inputs/read/7";
                 is_prio := Some true; auto_enabled := false |} in
  let off := {| sensor_type := "zone_input"; zone_id := "8";
                name := "Alarm - Zone 8"; device_class := "motion";
                enabled := false;
                topic := "selfmon/vmod.010aa1/prio/inputs/read/8";
                is_prio := Some true; auto_enabled := false |} in
  let temperature := {| sensor_type := "temperature"; zone_id := "temperature";
                        name := "Temperature Sensor"; device_class := "temperature";
                        enabled := true;
                        topic := "selfmon/vmod.010aa1/temperature";
                        is_prio := None; auto_enabled := true |} in
  let items := [(topic zone, zone); (topic off, off); (topic temperature, temperature)] in
  (BinarySensor.zone_topic <$> Integration.zone_entities "selfmon/vmod.010aa1" items)
  ++ (Integration.entity_topic
        <$> Integration.sensor_entities "selfmon/vmod.010aa1" items)
  ≡ₚ [topic zone; topic temperature].
Proof.
  intros zone off temperature items.
  apply (platforms_share_enabled_sensors "selfmon/vmod.010aa1" items).
  repeat constructor; vm_compute; tauto.
Defined.

Lemma unique_id_prefix (path a b : string) :
  "selfmon_" +:+ module_id path +:+ a = "selfmon_" +:+ module_id path +:+ b
  ↔ a = b.
Proof.
  split; [|now intros ->].
  intros H. apply (inj (String.append "selfmon_")) in H.
  now apply (inj (String.append (module_id path))) in H.
Qed.

(** Unique ids within one module.  Two zone sensors have the same unique
    id exactly when they have the same zone id.  Two entities of
    [sensor.py] have the same unique id exactly when they are of the same
    class and, for outputs and keypad lines, have the same zone id. *)
Theorem unique_ids_by_class_and_zone (path key1 key2 : string)
    (c1 c2 : Integration.sensor_class) (d1 d2 : descriptor) :
  (BinarySensor.attr_unique_id (BinarySensor.init path key1 d1)
   = BinarySensor.attr_unique_id (BinarySensor.init path key2 d2)
   ↔ zone_id d1 = zone_id d2)
  ∧ (Integration.attr_unique_id (Integration.build c1 path d1)
     = Integration.attr_unique_id (Integration.build c2 path d2)
     ↔ c1 = c2
       ∧ match c1 with
         | Integration.SelfMonOutputSensor | Integration.SelfMonVKPSensor =>
             zone_id d1 = zone_id d2
         | _ => True
         end).
Proof.
  split.
  - unfold BinarySensor.init. cbn [BinarySensor.attr_unique_id].
    rewrite unique_id_prefix. split; [|now intros ->].
    intros H. now apply (inj (String.append "_zone_")) in H.
  - destruct c1, c2; cbn [Integration.build Integration.output_sensor
        Integration.temperature_sensor Integration.vkp_sensor
        Integration.version_sensor Integration.attr_unique_id];
      rewrite unique_id_prefix; (split; [intros H|intros [Hc Hz]]);
      try discriminate; try (split; [reflexivity|]); try exact I;
      try reflexivity; try (cbn in H; discriminate H).
    + now apply (inj (String.append "_output_")) in H.
    + now rewrite Hz.
    + now apply (inj (String.append "_vkp_")) in H.
    + now rewrite Hz.
Qed.

(** ** Decoders over a run of payloads *)

(** After any run of payloads the zone sensor is on or off as the last
    payload that was ["OPEN"] or ["CLOSED"] says, or as before the run
    when there was none; it wrote one state per such payload and warned
    once per other payload, in order; its identity did not change. *)
Theorem zone_sensor_follows_last_valid (s : BinarySensor.zone_sensor)
    (payloads : list string) :
  let s' := List.fold_left BinarySensor.message_received payloads s in
  let states := omap Integration.zone_state payloads in
  BinarySensor.attr_is_on s'
  = from_option Some (BinarySensor.attr_is_on s) (last states)
  ∧ BinarySensor.written s' = rev (Some <$> states) ++ BinarySensor.written s
  ∧ BinarySensor.warned s'
    = rev (List.filter (λ p, bool_decide (Integration.zone_state p = None)) payloads)
      ++ BinarySensor.warned s
  ∧ BinarySensor.zone_topic s' = BinarySensor.zone_topic s
  ∧ BinarySensor.attr_unique_id s' = BinarySensor.attr_unique_id s.
Proof.
  cbn zeta. revert s. induction payloads as [|p payloads IH]; intros s.
  - cbn. auto.
  - cbn [List.fold_left omap list_omap List.filter].
    destruct (IH (BinarySensor.message_received s p)) as (H1 & H2 & H3 & H4 & H5).
    rewrite H1, H2, H3, H4, H5. clear IH H1 H2 H3 H4 H5.
    unfold BinarySensor.message_received, Integration.zone_state.
    destruct (String.eqb p PAYLOAD_OPEN);
      [|destruct (String.eqb p PAYLOAD_CLOSED)]; cbn.
    + rewrite last_cons. rewrite <- app_assoc. cbn.
      repeat split. now destruct (last _).
    + rewrite last_cons. rewrite <- app_assoc. cbn.
      repeat split. now destruct (last _).
    + rewrite <- app_assoc. cbn. auto.
Qed.


(** The output, keypad and version sensors take every payload: after a run
    the value is the last payload, whatever it is, and every payload was
    written to the host.  The output sensor's test for ["ON"] and ["OFF"]
    changes nothing. *)
Theorem text_sensors_take_every_payload (s : Integration.text_sensor)
    (payloads : list string) :
  let s' := List.fold_left Integration.text_message_received payloads s in
  List.fold_left Integration.output_message_received payloads s = s'
  ∧ Integration.attr_native_value s'
    = from_option Some (Integration.attr_native_value s) (last payloads)
  ∧ Integration.written s' = rev payloads ++ Integration.written s.
Proof.
  cbn zeta. split.
  - revert s. induction payloads as [|p payloads IH]; intros s; [reflexivity|].
    cbn [List.fold_left]. rewrite <- IH. f_equal.
    unfold Integration.output_message_received, Integration.text_message_received.
    now destruct (_ || _).
  - revert s. induction payloads as [|p payloads IH]; intros s; [now cbn|].
    cbn [List.fold_left]. destruct (IH (Integration.text_message_received s p))
      as [H1 H2]. rewrite H1, H2. cbn. rewrite last_cons, <- app_assoc.
    split; [|reflexivity]. now destruct (last payloads).
Qed.

(** ** Setting up and unloading an entry *)

(** Setting up an entry whose data has a module path stores it under the
    entry's id, with no sensors and outputs off where the data lacks those
    keys, and leaves the other entries alone; both platforms then build
    their entities from what was stored.  Unloading it again, when the
    host's platforms unloaded, removes it: the domain's dictionary is as
    before the setup (empty when there was none); when they did not
    unload, it stays.  Without a
    module path the setup raises [KeyError] after creating the domain's
    dictionary, and unloading an entry that is not stored raises
    [KeyError]. *)
Theorem setup_and_unload (hass_data : option (gmap string Integration.runtime))
    (entry : Integration.config_entry) (path other : string) :
  Integration.data_module_path entry = Some path →
  let stored := default ∅ (Integration.data_sensors entry) in
  let after := (Integration.async_setup_entry hass_data entry).1 in
  (Integration.async_setup_entry hass_data entry).2 = Some true
  ∧ after ≫= (.!! Integration.entry_id entry)
    = Some (Integration.Runtime path stored
              (default false (Integration.data_enable_outputs entry)))
  ∧ (other ≠ Integration.entry_id entry →
     after ≫= (.!! other) = hass_data ≫= (.!! other))
  ∧ Integration.binary_sensor_setup after (Integration.entry_id entry)
    = Some (Integration.zone_entities path (map_to_list stored))
  ∧ Integration.sensor_setup after (Integration.entry_id entry)
    = Some (Integration.sensor_entities path (map_to_list stored))
  ∧ (hass_data ≫= (.!! Integration.entry_id entry) = None →
     Integration.async_unload_entry after entry true
     = (Some (default ∅ hass_data), Some true))
  ∧ Integration.async_unload_entry after entry false = (after, Some false)
  ∧ (hass_data ≫= (.!! Integration.entry_id entry) = None →
     Integration.async_unload_entry hass_data entry true = (hass_data, None)
     ∧ Integration.binary_sensor_setup hass_data (Integration.entry_id entry) = None
     ∧ Integration.sensor_setup hass_data (Integration.entry_id entry) = None)
  ∧ Integration.async_setup_entry hass_data
      (Integration.ConfigEntry (Integration.entry_id entry) None
         (Integration.data_sensors entry) (Integration.data_enable_outputs entry))
    = (Some (default ∅ hass_data), None).
Proof.
  intros Hpath. cbn zeta. unfold Integration.async_setup_entry. rewrite Hpath.
  cbn [fst snd]. unfold Integration.binary_sensor_setup, Integration.sensor_setup,
    Integration.async_unload_entry.
  cbn [mbind option_bind]. rewrite !lookup_insert_eq. cbn.
  repeat split.
  - intros Hne. rewrite lookup_insert_ne by congruence. now destruct hass_data.
  - intros Hnone. f_equal. f_equal. apply delete_insert_id.
    destruct hass_data; [exact Hnone|apply lookup_empty].
  - destruct hass_data as [domain|]; [|reflexivity]. cbn in H. now rewrite H.
  - destruct hass_data as [domain|]; [|reflexivity]. cbn in H |- *. now rewrite H.
  - destruct hass_data as [domain|]; [|reflexivity]. cbn in H |- *. now rewrite H.
Qed.

Lemma setup_and_unload_witness :
  let entry := Integration.ConfigEntry "entry-1" (Some "selfmon/vmod.010aa1")
                 None None in
  Integration.async_unload_entry (Integration.async_setup_entry None entry).1
    entry true
  = (Some ∅, Some true).
Proof.
  intros entry.
  destruct (setup_and_unload None entry "selfmon/vmod.010aa1" "" eq_refl)
    as (_ & _ & _ & _ & _ & Hunload & _).
  now apply Hunload.
Defined.

(** ** The options flow edits the entry's own dictionaries *)



(** ** Outputs stay out when they are disabled *)

Lemma split_outputs_branch (vrio : bool) (tail : string) :
  ∃ seg segs, Py.split "/" tail = seg :: segs
    ∧ Py.split "/" ((if vrio then TOPIC_VRIO_OUTPUTS else TOPIC_PRIO_OUTPUTS) +:+ tail)
      = (if vrio then "vrio" else "prio") :: ("outputs" +:+ seg) :: segs.
Proof.
  destruct (Py.split "/" tail) as [|seg segs] eqn:Et;
    [now apply split_nonempty in Et|].
  exists seg, segs. split; [reflexivity|].
  destruct vrio; cbn; now rewrite Et.
Qed.

(** With outputs disabled, under a module base without wildcard levels,
    no topic at all is classified as an output: a session run without
    outputs stores no output sensor. *)
Theorem no_output_when_disabled (fails : string → bool) (base : string)
    (b : Mqtt.broker) (messages : list string) (w : Session.wake)
    (t : string) (d : descriptor) :
  Mqtt.literal base = true →
  (Session.classify fails base t false = Some d →
   sensor_type d ≠ SENSOR_TYPE_OUTPUT)
  ∧ ((Session.async_step_discover fails base false b messages w).2 !! t = Some d →
     sensor_type d ≠ SENSOR_TYPE_OUTPUT).
Proof.
  intros Hbase.
  assert (Hclass : Session.classify fails base t false = Some d →
                   sensor_type d ≠ SENSOR_TYPE_OUTPUT).
  { intros Hc Hty.
    assert (∃ relative, t = base +:+ String "/" relative) as [relative ->].
    { unfold Session.classify in Hc.
      destruct (List.existsb _ _) eqn:Hex; [|discriminate].
      eauto using delivered_under_base. }
    rewrite classify_under_base in Hc.
    destruct (List.existsb _ _) eqn:Hex; [|discriminate].
    unfold ConfigFlow.discovered in Hc. rewrite relative_topic_under_base in Hc.
    destruct (Py.startswith TOPIC_PRIO_INPUTS relative
              || Py.startswith TOPIC_VRIO_INPUTS relative) eqn:Hin.
    { injection Hc as <-. discriminate Hty. }
    assert (∃ (vrio : bool) tail,
              relative = (if vrio then TOPIC_VRIO_OUTPUTS else TOPIC_PRIO_OUTPUTS)
                         +:+ tail) as (vrio & tail & ->).
    { destruct (Py.startswith TOPIC_PRIO_OUTPUTS relative) eqn:Hprio.
      { apply startswith_inv in Hprio as [tail ->]. now exists false, tail. }
      destruct (Py.startswith TOPIC_VRIO_OUTPUTS relative) eqn:Hvrio.
      { apply startswith_inv in Hvrio as [tail ->]. now exists true, tail. }
      exfalso. cbn [orb] in Hc.
      repeat match type of Hc with
             | (if ?c then _ else _) = _ => destruct c
             end; try discriminate; injection Hc as <-; discriminate Hty. }
    destruct (split_outputs_branch vrio tail) as (seg & segs & _ & Hsplit).
    rewrite Hsplit in Hex.
    destruct vrio; cbn in Hex; rewrite ?andb_false_r in Hex; discriminate. }
  split; [exact Hclass|].
  rewrite discover_lookup. case_bool_decide; [exact Hclass|discriminate].
Qed.

Lemma no_output_when_disabled_witness :
  (Session.async_step_discover Session.no_failure "selfmon/vmod.010aa1" false
     Mqtt.idle
     ["selfmon/vmod.010aa1/prio/outputs/3"; "selfmon/vmod.010aa1/version"]
     Session.TimerElapsed).2 !! "selfmon/vmod.010aa1/prio/outputs/3"
  = None.
Proof.
  destruct (_ !! _) as [d|] eqn:Hd; [exfalso|reflexivity].
  destruct (no_output_when_disabled Session.no_failure "selfmon/vmod.010aa1"
              Mqtt.idle
              ["selfmon/vmod.010aa1/prio/outputs/3"; "selfmon/vmod.010aa1/version"]
              Session.TimerElapsed "selfmon/vmod.010aa1/prio/outputs/3" d
              eq_refl) as [_ Hstore].
  apply (Hstore Hd). vm_compute in Hd. discriminate Hd.
Defined.

(** ** The module paths of the flow *)

(** Whatever way the flow gets its module path on its own, from the one
    discovered module or from the manual entry, the path has no wildcard
    level and would pass the manual entry's validation. *)
Theorem flow_module_path_is_literal (fails : string → bool)
    (configured : gset string) (f : Flow.flow) (b : Mqtt.broker)
    (messages : list string) (entered flow_path : string) :
  (let '(f', _, r) :=
     Flow.async_step_user fails configured true f b messages
       Session.TimerElapsed in
   r = Flow.ShowForm "output_config" [] →
   ConfigFlow.valid_module_path (Flow._module_path f') = true
   ∧ Mqtt.literal (Flow._module_path f') = true)
  ∧ (let '(path, r) :=
       ConfigFlow.async_step_manual_entry configured flow_path (Some entered) in
     r = ConfigFlow.ShowForm "output_config" [] →
     ConfigFlow.valid_module_path path = true ∧ Mqtt.literal path = true).
Proof.
  split.
  - unfold Flow.async_step_user. cbn [negb].
    destruct (Session.async_step_user fails b messages Session.TimerElapsed)
      as [[exit b'] modules] eqn:Hs.
    destruct exit; [|discriminate].
    destruct (elements modules) as [|path [|path' l]] eqn:Hel; [discriminate| |].
    + cbn. intros _.
      assert (path ∈ (Session.async_step_user fails b messages
                        Session.TimerElapsed).2) as Hin.
      { rewrite Hs. cbn. apply elem_of_elements. rewrite Hel. left. }
      apply user_modules in Hin as (t & _ & _ & Hm).
      apply module_match_valid in Hm. eauto using module_path_literal.
    + cbn. discriminate.
  - unfold ConfigFlow.async_step_manual_entry.
    destruct (ConfigFlow.valid_module_path _) eqn:Hvalid; cbn [negb];
      [|discriminate].
    case_bool_decide; [discriminate|]. intros _.
    eauto using module_path_literal.
Qed.

(** ** The subscribe loop *)

(** The subscribe loop skips the patterns whose subscription raises and
    makes the others: the session holds one handle per pattern that
    succeeded, in the order of the patterns, no handle twice; each is
    active with its pattern, and no subscription of anyone else is
    touched. *)
Theorem subscribe_loop_skips_failures (fails : string → bool)
    (patterns : list string) (b : Mqtt.broker) (other : nat) :
  let '(b1, unsubscribes) := Session.subscribe_loop fails patterns b [] in
  Forall2 (λ h pattern, Mqtt.subscriptions b1 !! h = Some pattern)
    unsubscribes (Session.subscribed fails patterns)
  ∧ NoDup unsubscribes
  ∧ length unsubscribes
    = length (List.filter (λ pattern, negb (fails pattern)) patterns)
  ∧ (other ∉ unsubscribes →
     Mqtt.subscriptions b1 !! other = Mqtt.subscriptions b !! other).
Proof.
  destruct (Session.subscribe_loop fails patterns b []) as [b1 hs] eqn:Hloop.
  destruct (subscribe_loop_patterns fails _ _ _ _ _ Hloop) as (new & -> & Hall).
  cbn [app] in *. split; [exact Hall|].
  assert (Hnodup : ∀ patterns b b1 acc hs,
            Session.subscribe_loop fails patterns b acc = (b1, hs) →
            NoDup acc → (∀ h, h ∈ acc → h < Mqtt.next_handle b) → NoDup hs).
  { clear. induction patterns as [|p patterns IH]; intros b b1 acc hs Hloop Hacc Hlt.
    - now injection Hloop as <- <-.
    - cbn [Session.subscribe_loop] in Hloop. destruct (fails p); [eauto|].
      cbn in Hloop. apply IH in Hloop; [exact Hloop| |].
      + apply NoDup_app. split; [exact Hacc|]. split; [|apply NoDup_singleton].
        intros h Hh ->%list_elem_of_singleton. apply Hlt in Hh. lia.
      + cbn. intros h [Hh| ->%list_elem_of_singleton]%elem_of_app;
          [apply Hlt in Hh|]; lia. }
  split; [|split].
  - eapply Hnodup; [exact Hloop|apply NoDup_nil_2|].
    intros h Hh. now apply elem_of_nil in Hh.
  - now apply Forall2_length in Hall.
  - destruct (subscribe_loop_spec fails _ _ _ _ _ Hloop)
      as (new' & Heq & _ & _ & _ & Hkeep).
    cbn [app] in Heq. subst new'. apply Hkeep.
Qed.
